(** * MCP Docker Executor: sandbox lifecycle and execution orchestration

    A shallow embedding of [models.py], [file_manager.py] and
    [docker_manager.py].  The container engine, the wall clock and the
    upload directory are external: they appear as an environment of
    oracles, and every engine call the manager makes is appended to a log
    so that "this call was (not) made" is a statement about data. *)

From Stdlib Require Import Floats QArith Ascii String.
From stdpp Require Import gmap strings pretty list fin_maps.

Set Warnings "-inexact-float".
Local Open Scope Z_scope.
Local Open Scope string_scope.

(** ** Python values and builtins used by the manager *)

Module Py.

(** Exception classes met in the code: builtins, pydantic's
    [ValidationError] and the [docker.errors] hierarchy.  All of them
    derive from [Exception], which is what the handlers of the manager
    catch; interrupts of the interpreter are outside the model. *)
Inductive ExcClass :=
| ValueError | OverflowError | KeyError | UnicodeDecodeError
| RuntimeError | OSError | ValidationError
| DockerException | APIError | NotFound | ImageNotFound | BuildError.

#[global] Instance ExcClass_eq_dec : EqDecision ExcClass.
Proof. solve_decision. Defined.

(** An exception object: its class and what [str(e)] gives. *)
Record Exception := Exc { exc_class : ExcClass; exc_str : string }.

(** [issubclass] on the classes above; [APIError <: DockerException],
    [NotFound <: APIError], [ImageNotFound <: NotFound]. *)
Definition issubclass (c p : ExcClass) : bool :=
  match p, c with
  | DockerException, (DockerException | APIError | NotFound | ImageNotFound | BuildError) => true
  | APIError, (APIError | NotFound | ImageNotFound) => true
  | NotFound, (NotFound | ImageNotFound) => true
  | _, _ => bool_decide (c = p)
  end.

Definition isinstance (e : Exception) (p : ExcClass) : bool :=
  issubclass (exc_class e) p.

(** What a Python call produces: a value, or a raised exception. *)
Inductive result (A : Type) :=
| Ok (a : A)
| Raise (e : Exception).
Arguments Ok {A} a.
Arguments Raise {A} e.

(** [bytes]; a [str] is kept as its UTF-8 encoding, so [str.encode()]
    is the identity on the underlying octets. *)
Definition bytes := list Byte.byte.

Definition str_encode (s : string) : bytes := String.list_byte_of_string s.

Definition octet_in (lo hi b : N) : bool := (lo <=? b)%N && (b <=? hi)%N.
Definition utf8_cont (b : N) : bool := octet_in 128 191 b.

(** Well-formed UTF-8 (Unicode table 3-7): no overlong forms, no
    surrogates, nothing above U+10FFFF. *)
Fixpoint utf8_valid (bs : list N) : bool :=
  match bs with
  | [] => true
  | b0 :: r0 =>
      if (b0 <? 128)%N then utf8_valid r0 else
      match r0 with
      | [] => false
      | b1 :: r1 =>
          if octet_in 194 223 b0 then utf8_cont b1 && utf8_valid r1 else
          match r1 with
          | [] => false
          | b2 :: r2 =>
              if octet_in 224 239 b0 then
                (if (b0 =? 224)%N then octet_in 160 191 b1
                 else if (b0 =? 237)%N then octet_in 128 159 b1
                 else utf8_cont b1)
                && utf8_cont b2 && utf8_valid r2
              else
              match r2 with
              | [] => false
              | b3 :: r3 =>
                  if octet_in 240 244 b0 then
                    (if (b0 =? 240)%N then octet_in 144 191 b1
                     else if (b0 =? 244)%N then octet_in 128 143 b1
                     else utf8_cont b1)
                    && utf8_cont b2 && utf8_cont b3 && utf8_valid r3
                  else false
              end
          end
      end
  end.

(** [bytes.decode()] with the default codec (strict UTF-8).  The text of
    the [UnicodeDecodeError] is cut after the codec name; nothing below
    depends on the position and reason Python appends. *)
Definition bytes_decode (b : bytes) : result string :=
  if utf8_valid (Byte.to_N <$> b) then Ok (String.string_of_list_byte b)
  else Raise (Exc UnicodeDecodeError "'utf-8' codec can't decode bytes").

(** [base64.b64encode]. *)
Definition b64_alphabet : string :=
  "ABCDEFGHIJKLMNOPQRSTUVWXYZabcdefghijklmnopqrstuvwxyz0123456789+/".

Definition b64_char (n : N) : ascii :=
  default "A"%char (String.get (N.to_nat (n mod 64)%N) b64_alphabet).

Fixpoint b64_groups (bs : list N) : string :=
  match bs with
  | [] => ""
  | [a] =>
      let n := (a * 65536)%N in
      String (b64_char (n / 262144)) (String (b64_char (n / 4096)) "==")
  | [a; b] =>
      let n := (a * 65536 + b * 256)%N in
      String (b64_char (n / 262144)) (String (b64_char (n / 4096))
        (String (b64_char (n / 64)) "="))
  | a :: b :: c :: rest =>
      let n := (a * 65536 + b * 256 + c)%N in
      String (b64_char (n / 262144)) (String (b64_char (n / 4096))
        (String (b64_char (n / 64)) (String (b64_char n) (b64_groups rest))))
  end.

Definition b64encode (b : bytes) : string := b64_groups (Byte.to_N <$> b).

(** [int(x)] on a float: truncation toward zero; NaN and the infinities
    raise. *)
Definition int_of_float (x : float) : result Z :=
  match Prim2SF x with
  | S754_zero _ => Ok 0
  | S754_finite s m e =>
      let v := (if 0 <=? e then Z.pos m * 2 ^ e else Z.pos m / 2 ^ (- e))%Z in
      Ok (if s then (- v)%Z else v)
  | S754_infinity _ => Raise (Exc OverflowError "cannot convert float infinity to integer")
  | S754_nan => Raise (Exc ValueError "cannot convert float NaN to integer")
  end.

(** The wall clock returns finite floats; a reading is kept as the
    rational it denotes, and [int(time.time())] truncates it. *)
Definition int_of_time (q : Q) : Z := Z.quot (Qnum q) (Z.pos (Qden q)).

(** Characters that cannot be written inside a string literal here. *)
Definition nl : string := String (ascii_of_nat 10) "".
Definition dquote : string := String (ascii_of_nat 34) "".
Definition bslash : string := String (ascii_of_nat 92) "".

(** [sep.join(lines)]. *)
Fixpoint join (sep : string) (lines : list string) : string :=
  match lines with
  | [] => ""
  | [l] => l
  | l :: ls => l ++ sep ++ join sep ls
  end.

(** Truthiness of an optional string ([None] and [""] are falsy). *)
Definition truthy (o : option string) : bool :=
  match o with
  | Some s => negb (String.eqb s "")
  | None => false
  end.

(** [o or d] for an optional string. *)
Definition or_default (o : option string) (d : string) : string :=
  match o with
  | Some s => if String.eqb s "" then d else s
  | None => d
  end.

End Py.
Export Py.

(** ** models.py *)

Module Models.

Inductive Language := PYTHON | NODE | CSHARP | BASH.

#[global] Instance Language_eq_dec : EqDecision Language.
Proof. solve_decision. Defined.

(** The enum's [value]. *)
Definition Language_value (l : Language) : string :=
  match l with
  | PYTHON => "python"
  | NODE => "node"
  | CSHARP => "csharp"
  | BASH => "bash"
  end.

(** Iteration order of [for language in Language]. *)
Definition Language_members : list Language := [PYTHON; NODE; CSHARP; BASH].

(** [Language(value)], as pydantic coerces a string field. *)
Definition Language_of_value (v : string) : option Language :=
  List.find (fun l => String.eqb (Language_value l) v) Language_members.

Inductive ExecutionStatus := PENDING | RUNNING | COMPLETED | FAILED | TIMEOUT.

#[global] Instance ExecutionStatus_eq_dec : EqDecision ExecutionStatus.
Proof. solve_decision. Defined.

Record ResourceLimits := {
  memory_mb : Z;
  cpu_cores : float;
  timeout_seconds : Z;
  network_enabled : bool;
}.

(** One entry of a pydantic [ValidationError]: the constraint that
    failed and the field it failed on. *)
Inductive FieldError :=
| greater_than_equal (field : string)
| less_than_equal (field : string).

Inductive validation (A : Type) :=
| Valid (a : A)
| Invalid (errors : list FieldError).
Arguments Valid {A} a.
Arguments Invalid {A} errors.

(** [Field(ge=lo, le=hi)] on an [int] field. *)
Definition check_int (field : string) (lo hi v : Z) : list FieldError :=
  if negb (lo <=? v)%Z then [greater_than_equal field]
  else if negb (v <=? hi)%Z then [less_than_equal field]
  else [].

(** [Field(ge=lo, le=hi)] on a [float] field (IEEE comparisons: a NaN
    fails the first one). *)
Definition check_float (field : string) (lo hi v : float) : list FieldError :=
  if negb (lo <=? v)%float then [greater_than_equal field]
  else if negb (v <=? hi)%float then [less_than_equal field]
  else [].

Definition ResourceLimits_errors (m : Z) (c : float) (t : Z) : list FieldError :=
  check_int "memory_mb" 64 8192 m
  ++ check_float "cpu_cores" 0.1 8.0 c
  ++ check_int "timeout_seconds" 10 3600 t.

(** [ResourceLimits(memory_mb=m, cpu_cores=c, timeout_seconds=t,
    network_enabled=n)]: the model is returned when no constraint
    fails, and the failed constraints otherwise. *)
Definition ResourceLimits_init (m : Z) (c : float) (t : Z) (n : bool)
  : validation ResourceLimits :=
  match ResourceLimits_errors m c t with
  | [] => Valid {| memory_mb := m; cpu_cores := c; timeout_seconds := t;
                   network_enabled := n |}
  | errs => Invalid errs
  end.

(** Field defaults. *)
Definition ResourceLimits_default : ResourceLimits :=
  {| memory_mb := 512; cpu_cores := 1.0; timeout_seconds := 300;
     network_enabled := false |}.

(** Does the error list name this field? *)
Definition error_field (e : FieldError) : string :=
  match e with greater_than_equal f | less_than_equal f => f end.

Definition rejects_field (errs : list FieldError) (field : string) : bool :=
  existsb (fun e => String.eqb (error_field e) field) errs.

Record CreateImageRequest := {
  languages : list Language;
  requirements : gmap string string;
  image_name : option string;
  custom_dockerfile : option string;
  base_os : string;
}.

Record CreateImageResponse := {
  cir_success : bool;
  cir_image_id : option string;
  cir_image_name : option string;
  cir_build_logs : list string;
  cir_error_message : option string;
}.

Record ExecuteCodeRequest := {
  language : Language;
  code : string;
  image_id : option string;
  working_directory : string;
  environment_variables : gmap string string;
  resource_limits : ResourceLimits;
  input_data : option string;
}.

Record ExecuteCodeResponse := {
  execution_id : string;
  status : ExecutionStatus;
  stdout : option string;
  stderr : option string;
  exit_code : option Z;
  error_message : option string;
  execution_time_seconds : option float;
}.

Record StreamExecutionRequest := {
  ser_language : Language;
  ser_code : string;
  ser_image_id : option string;
  ser_working_directory : string;
  ser_environment_variables : gmap string string;
  ser_resource_limits : ResourceLimits;
}.

Record InstallPackageRequest := {
  ipr_image_id : string;
  ipr_language : Language;
  package_name : string;
  build_new_image : bool;
  package_version : option string;
}.

Record InstallPackageResponse := {
  ipr_success : bool;
  new_image_id : option string;
  ipr_build_logs : list string;
  ipr_error_message : option string;
}.

Record FileExecutionRequest := {
  file_id : string;
  fer_container_id : option string;
  fer_image_id : option string;
  fer_working_directory : string;
  fer_environment_variables : gmap string string;
  fer_resource_limits : ResourceLimits;
  fer_input_data : option string;
}.

End Models.
Export Models.

(** ** file_manager.py *)

Module FileManager.

(** The metadata dictionary [upload_file] dumps next to each file. *)
Record Metadata := {
  md_file_id : string;
  md_filename : string;
  md_language : string;
  md_file_path : string;
  md_size : Z;
  md_uploaded_at : string;
  md_encoding : string;
  md_binary : bool;
}.

(** What [get_file] returns: the metadata with a ["content"] key added. *)
Record FileInfo := {
  fi_metadata : Metadata;
  fi_content : string;
}.

(** A file on disk, seen through the two ways the manager reads one:
    [open(p, encoding=enc).read()] and [json.load(open(p))]. *)
Record File := {
  read_text : string -> result string;
  json_load : result Metadata;
}.

(** The file system under the upload directory: path to file. *)
Record FileSystem := {
  upload_dir : string;
  files : gmap string File;
}.

Definition metadata_path (fs : FileSystem) (l : Language) (file_id : string) : string :=
  upload_dir fs ++ "/" ++ Language_value l ++ "/" ++ file_id ++ "_metadata.json".

(** The [for language in Language] loop of [get_file]; a raised
    exception leaves the loop. *)
Fixpoint get_file_loop (fs : FileSystem) (file_id : string) (langs : list Language)
  : result (option FileInfo) :=
  match langs with
  | [] => Ok None
  | l :: rest =>
      match files fs !! metadata_path fs l file_id with
      | Some f =>
          match json_load f with
          | Raise e => Raise e
          | Ok metadata =>
              match files fs !! md_file_path metadata with
              | Some g =>
                  match read_text g (md_encoding metadata) with
                  | Raise e => Raise e
                  | Ok content =>
                      Ok (Some {| fi_metadata := metadata; fi_content := content |})
                  end
              | None => get_file_loop fs file_id rest
              end
          end
      | None => get_file_loop fs file_id rest
      end
  end.

(** [FileManager.get_file]: any exception is printed and turned into
    [None]. *)
Definition get_file (fs : FileSystem) (file_id : string) : option FileInfo :=
  match get_file_loop fs file_id Language_members with
  | Ok r => r
  | Raise _ => None
  end.

End FileManager.

(** ** The container engine, the clock and the manager's state *)

Module Engine.

Record Container := { container_id : option string }.

Record Image := { image_ident : option string }.

(** [ExecResult(exit_code, output)] of [container.exec_run]. *)
Record ExecResult := {
  er_exit_code : Z;
  er_output : option bytes;
}.

(** An entry of the build log: the value under ["stream"] when the entry
    is a dict that has the key, and [str(log)]. *)
Record BuildLog := {
  log_stream : option string;
  log_str : string;
}.

(** Keyword arguments of [containers.create]. *)
Record CreateArgs := {
  ca_image : string;
  ca_environment : gmap string string;
  ca_working_dir : string;
  ca_mem_limit : string;
  ca_cpu_quota : Z;
  ca_cpu_period : Z;
  ca_network_disabled : bool;
  ca_detach : bool;
  ca_stdin_open : bool;
  ca_tty : bool;
  ca_user : string;
}.

(** A call made on the engine. *)
Inductive Call :=
| containers_create_call (args : CreateArgs)
| container_start_call (c : Container)
| container_exec_run_call (c : Container) (cmd : list string) (user : option string)
| container_stop_call (c : Container)
| container_remove_call (c : Container)
| images_get_call (name : string)
| images_build_call (dockerfile tag : string) (nocache : bool)
| containers_list_call (ancestor : string).

(** The engine is stateful and fallible: each reply is a function of the
    calls made before and of the call's arguments. *)
Record Engine := {
  containers_create : list Call -> CreateArgs -> result Container;
  container_start : list Call -> Container -> result unit;
  container_exec_run : list Call -> Container -> list string -> option string -> result ExecResult;
  container_stop : list Call -> Container -> result unit;
  container_remove : list Call -> Container -> result unit;
  images_get : list Call -> string -> result Image;
  images_build : list Call -> string -> string -> bool -> result (Image * list BuildLog);
  containers_list : list Call -> string -> result (list Container);
}.

Definition is_build (c : Call) : bool :=
  match c with images_build_call _ _ _ => true | _ => false end.

Definition is_teardown_of (k : Container) (c : Call) : bool :=
  match c with
  | container_stop_call k' | container_remove_call k' =>
      bool_decide (container_id k' = container_id k)
  | _ => false
  end.

End Engine.
Export Engine.

(** What the manager sees of the outside world. *)
Record Env := {
  engine : Engine;
  (** the value of the n-th call of [time.time()] *)
  clock : nat -> Q;
  (** [./Dockerfile] in the working directory: absent, or what reading
      it gives *)
  project_dockerfile : option (result string);
  (** [asyncio.create_task] for the n-th task *)
  asyncio_create_task : nat -> result unit;
  (** the upload directory *)
  uploads : FileManager.FileSystem;
}.

(** A tracked streaming execution: the dict stored in
    [streaming_executions]. *)
Record StreamRecord := {
  sr_request : StreamExecutionRequest;
  sr_status : string;
  sr_start_time : Q;
  sr_logs : list string;
  sr_task : option nat;
  sr_response : option ExecuteCodeResponse;
  sr_end_time : option Q;
  sr_error : option string;
}.

(** The [DockerManager] instance together with the state of the world
    around it.  The tracked dicts are objects: [streaming_executions]
    maps an execution id to a reference into [objects], so that a
    reference taken before an update still sees it. *)
Record State := {
  active_containers : gmap string Container;
  streaming_executions : gmap string nat;
  objects : list StreamRecord;
  pending_tasks : list (nat * string);
  next_task : nat;
  clock_reads : nat;
  engine_log : list Call;
}.

Definition initial_state : State :=
  {| active_containers := ∅; streaming_executions := ∅; objects := [];
     pending_tasks := []; next_task := 0; clock_reads := 0; engine_log := [] |}.

Definition with_active_containers (f : gmap string Container -> gmap string Container)
  (s : State) : State :=
  {| active_containers := f (active_containers s);
     streaming_executions := streaming_executions s; objects := objects s;
     pending_tasks := pending_tasks s; next_task := next_task s;
     clock_reads := clock_reads s; engine_log := engine_log s |}.

Definition with_streaming_executions (f : gmap string nat -> gmap string nat)
  (s : State) : State :=
  {| active_containers := active_containers s;
     streaming_executions := f (streaming_executions s); objects := objects s;
     pending_tasks := pending_tasks s; next_task := next_task s;
     clock_reads := clock_reads s; engine_log := engine_log s |}.

Definition with_objects (f : list StreamRecord -> list StreamRecord) (s : State) : State :=
  {| active_containers := active_containers s;
     streaming_executions := streaming_executions s; objects := f (objects s);
     pending_tasks := pending_tasks s; next_task := next_task s;
     clock_reads := clock_reads s; engine_log := engine_log s |}.

Definition with_pending_tasks (f : list (nat * string) -> list (nat * string))
  (s : State) : State :=
  {| active_containers := active_containers s;
     streaming_executions := streaming_executions s; objects := objects s;
     pending_tasks := f (pending_tasks s); next_task := next_task s;
     clock_reads := clock_reads s; engine_log := engine_log s |}.

Definition with_next_task (n : nat) (s : State) : State :=
  {| active_containers := active_containers s;
     streaming_executions := streaming_executions s; objects := objects s;
     pending_tasks := pending_tasks s; next_task := n;
     clock_reads := clock_reads s; engine_log := engine_log s |}.

Definition with_clock_reads (n : nat) (s : State) : State :=
  {| active_containers := active_containers s;
     streaming_executions := streaming_executions s; objects := objects s;
     pending_tasks := pending_tasks s; next_task := next_task s;
     clock_reads := n; engine_log := engine_log s |}.

Definition with_engine_log (l : list Call) (s : State) : State :=
  {| active_containers := active_containers s;
     streaming_executions := streaming_executions s; objects := objects s;
     pending_tasks := pending_tasks s; next_task := next_task s;
     clock_reads := clock_reads s; engine_log := l |}.

(** ** Stateful, fallible computations *)

Definition M (A : Type) : Type := State -> State * result A.

Definition ret {A} (a : A) : M A := fun s => (s, Ok a).

Definition raise {A} (e : Exception) : M A := fun s => (s, Raise e).

Definition bind {A B} (m : M A) (k : A -> M B) : M B :=
  fun s =>
    match m s with
    | (s', Ok a) => k a s'
    | (s', Raise e) => (s', Raise e)
    end.

(** [try: m  except Exception as e: h e]; the state changes made before
    the exception stay. *)
Definition try_except {A} (m : M A) (h : Exception -> M A) : M A :=
  fun s =>
    match m s with
    | (s', Ok a) => (s', Ok a)
    | (s', Raise e) => h e s'
    end.

Definition lift {A} (r : result A) : M A := fun s => (s, r).

Definition get : M State := fun s => (s, Ok s).

Definition modify (f : State -> State) : M unit := fun s => (f s, Ok tt).

Notation "'let*' x ':=' m 'in' k" := (bind m (fun x => k))
  (at level 10, x name, m at level 100, k at level 200, only parsing).
Notation "'do*' m 'in' k" := (bind m (fun _ => k))
  (at level 10, m at level 100, k at level 200, only parsing).

(** [time.time()] and [int(time.time())]. *)
Definition time_time (env : Env) : M Q :=
  fun s => (with_clock_reads (S (clock_reads s)) s, Ok (clock env (clock_reads s))).

Definition int_time (env : Env) : M Z :=
  let* t := time_time env in ret (int_of_time t).

(** An engine call: logged, then answered from the history before it. *)
Definition engine_call {A} (c : Call) (reply : list Call -> result A) : M A :=
  fun s => (with_engine_log (engine_log s ++ [c]) s, reply (engine_log s)).

(** ** docker_manager.py *)

Module DockerManager.

(** The entry of a build log as the responses report it. *)
Definition render_log (l : BuildLog) : string :=
  match log_stream l with
  | Some s => s
  | None => log_str l
  end.

(** *** Image construction *)

Definition _generate_dockerfile (env : Env) (request : CreateImageRequest) : M string :=
  let* t1 := int_time env in
  let* t2 := int_time env in
  let head :=
    [ "FROM " ++ base_os request;
      "";
      "# Cache busting";
      "RUN echo 'Cache bust: " ++ pretty t1 ++ "' > /tmp/cache_bust.txt";
      "RUN echo 'Build time: " ++ pretty t2 ++ "' > /tmp/build_time.txt";
      "" ] in
  let system :=
    [ "# Install system dependencies";
      "RUN apt-get update && apt-get install -y " ++ bslash;
      "    curl " ++ bslash;
      "    git " ++ bslash;
      "    build-essential " ++ bslash;
      "    wget " ++ bslash;
      "    gnupg " ++ bslash;
      "    libicu-dev " ++ bslash;
      "    libssl-dev " ++ bslash;
      "    && rm -rf /var/lib/apt/lists/*";
      "" ] in
  let node :=
    if bool_decide (NODE ∈ languages request) then
      [ "# Install Node.js";
        "RUN curl -fsSL https://deb.nodesource.com/setup_22.x | bash - " ++ bslash;
        "    && apt-get install -y nodejs " ++ bslash;
        "    && node --version " ++ bslash;
        "    && npm --version";
        "" ]
    else [] in
  let csharp :=
    if bool_decide (CSHARP ∈ languages request) then
      [ "# Install .NET SDK";
        "RUN wget https://packages.microsoft.com/config/ubuntu/22.04/" ++ bslash;
        "    packages-microsoft-prod.deb " ++ bslash;
        "    -O packages-microsoft-prod.deb && " ++ bslash;
        "    dpkg -i packages-microsoft-prod.deb && " ++ bslash;
        "    rm packages-microsoft-prod.deb && " ++ bslash;
        "    apt-get update && " ++ bslash;
        "    apt-get install -y dotnet-sdk-8.0 && " ++ bslash;
        "    dotnet --version";
        "" ]
    else [] in
  let workspace :=
    [ "# Create workspace and user";
      "RUN useradd -ms /bin/bash sandboxuser";
      "RUN mkdir -p /workspace && chown sandboxuser:sandboxuser /workspace";
      "USER sandboxuser";
      "WORKDIR /workspace";
      "";
      "# Default command";
      "CMD [" ++ dquote ++ "/bin/bash" ++ dquote ++ "]" ] in
  ret (join nl (head ++ system ++ node ++ csharp ++ workspace)).

(** The first [if]/[elif]/[else] of [create_image]: which build
    description is used. *)
Definition select_dockerfile (env : Env) (request : CreateImageRequest) : M string :=
  match project_dockerfile env with
  | Some content => lift content
  | None =>
      if truthy (custom_dockerfile request)
      then ret (default "" (custom_dockerfile request))
      else _generate_dockerfile env request
  end.

Definition create_image (env : Env) (request : CreateImageRequest) : M CreateImageResponse :=
  try_except
    (let* dockerfile_content := select_dockerfile env request in
     let* image_name :=
       (if truthy (image_name request) then ret (default "" (image_name request))
        else let* t := int_time env in ret ("mcp-executor-" ++ pretty t)) in
     let tag := image_name ++ ":latest" in
     try_except
       (let* built := engine_call (images_build_call dockerfile_content tag true)
                        (fun h => images_build (engine env) h dockerfile_content tag true) in
        ret {| cir_success := true;
               cir_image_id := image_ident (fst built);
               cir_image_name := Some image_name;
               cir_build_logs := render_log <$> snd built;
               cir_error_message := None |})
       (fun e =>
          ret {| cir_success := false;
                 cir_image_id := None;
                 cir_image_name := None;
                 cir_build_logs := [];
                 cir_error_message := Some ("Build failed: " ++ exc_str e) |}))
    (fun e =>
       ret {| cir_success := false;
              cir_image_id := None;
              cir_image_name := None;
              cir_build_logs := [];
              cir_error_message := Some (exc_str e) |}).

(** *** Command synthesis *)

(** [/tmp/exec_{timestamp}{ext}] and [/tmp/csharp_exec_{timestamp}]. *)
Definition exec_path (timestamp : Z) (ext : string) : string :=
  "/tmp/exec_" ++ pretty timestamp ++ ext.

Definition csharp_dir (timestamp : Z) : string :=
  "/tmp/csharp_exec_" ++ pretty timestamp.

Definition script_command (interpreter ext encoded_code : string) (timestamp : Z) : string :=
  "echo '" ++ encoded_code ++ "' | base64 -d > " ++ exec_path timestamp ext ++ " && "
  ++ interpreter ++ " " ++ exec_path timestamp ext ++ " && rm " ++ exec_path timestamp ext.

Definition csharp_command (encoded_code : string) (t1 t2 t3 : Z) : string :=
  "mkdir -p " ++ csharp_dir t1 ++ " && " ++ bslash ++ nl
  ++ "cd " ++ csharp_dir t2 ++ " && " ++ bslash ++ nl
  ++ "echo '" ++ encoded_code ++ "' | base64 -d > Program.cs && " ++ bslash ++ nl
  ++ "dotnet new console --force && " ++ bslash ++ nl
  ++ "cp Program.cs Program.cs.bak && " ++ bslash ++ nl
  ++ "echo '" ++ encoded_code ++ "' | base64 -d > Program.cs && " ++ bslash ++ nl
  ++ "dotnet run && " ++ bslash ++ nl
  ++ "cd / && " ++ bslash ++ nl
  ++ "rm -rf " ++ csharp_dir t3.

(** The enum is closed, so the final [else: raise ValueError] of the
    source has no counterpart. *)
Definition _prepare_code_execution (env : Env) (request : ExecuteCodeRequest)
  : M (string * option string) :=
  match language request with
  | PYTHON =>
      let encoded_code := b64encode (str_encode (code request)) in
      let* timestamp := int_time env in
      ret (script_command "python3" ".py" encoded_code timestamp, None)
  | NODE =>
      let encoded_code := b64encode (str_encode (code request)) in
      let* timestamp := int_time env in
      ret (script_command "node" ".js" encoded_code timestamp, None)
  | CSHARP =>
      let encoded_code := b64encode (str_encode (code request)) in
      let* t1 := int_time env in
      let* t2 := int_time env in
      let* t3 := int_time env in
      ret (csharp_command encoded_code t1 t2 t3, None)
  | BASH => ret (code request, None)
  end.

(** *** Execution *)

Definition baseline_environment : gmap string string :=
  <["PYTHONUNBUFFERED" := "1"]> (<["NODE_ENV" := "development"]> ∅).

(** The keyword arguments [execute_code] passes to
    [containers.create]; [**request.environment_variables] comes last
    in the dict display, so the request's values win. *)
Definition create_args (request : ExecuteCodeRequest) (cpu_quota : Z) : CreateArgs :=
  {| ca_image := or_default (image_id request) "mcp-executor-test:latest";
     ca_environment := environment_variables request ∪ baseline_environment;
     ca_working_dir := working_directory request;
     ca_mem_limit := pretty (memory_mb (resource_limits request)) ++ "m";
     ca_cpu_quota := cpu_quota;
     ca_cpu_period := 100000;
     ca_network_disabled := false;
     ca_detach := true;
     ca_stdin_open := true;
     ca_tty := true;
     ca_user := "root" |}.

(** [container.id[:8] if container.id else "unknown"]. *)
Definition short_id (c : Container) : string :=
  if truthy (container_id c) then substring 0 8 (default "" (container_id c))
  else "unknown".

(** [del self.active_containers[execution_id]]. *)
Definition del_active_container (execution_id : string) : M unit :=
  let* s := get in
  match active_containers s !! execution_id with
  | Some _ => modify (with_active_containers (delete execution_id))
  | None => raise (Exc KeyError ("'" ++ execution_id ++ "'"))
  end.

(** [result.output.decode() if result.output else ""]. *)
Definition decode_output (output : option bytes) : result string :=
  match output with
  | Some (b :: bs) => bytes_decode (b :: bs)
  | _ => Ok ""
  end.

(** The body of the [try] in [execute_code]. *)
Definition execute_code_try (env : Env) (request : ExecuteCodeRequest)
  : M ExecuteCodeResponse :=
  let* prepared := _prepare_code_execution env request in
  let command := fst prepared in
  let* cpu_quota :=
    lift (int_of_float (cpu_cores (resource_limits request) * 100000)%float) in
  let args := create_args request cpu_quota in
  let* container :=
    engine_call (containers_create_call args)
      (fun h => containers_create (engine env) h args) in
  let container_id := short_id container in
  let* t := int_time env in
  let execution_id := "exec_" ++ pretty t ++ "_" ++ container_id in
  do* modify (with_active_containers <[execution_id := container]>) in
  do* engine_call (container_start_call container)
        (fun h => container_start (engine env) h container) in
  let cmd := ["bash"; "-c"; command] in
  let* result :=
    engine_call (container_exec_run_call container cmd (Some "root"))
      (fun h => container_exec_run (engine env) h container cmd (Some "root")) in
  do* engine_call (container_stop_call container)
        (fun h => container_stop (engine env) h container) in
  do* engine_call (container_remove_call container)
        (fun h => container_remove (engine env) h container) in
  do* del_active_container execution_id in
  let* stdout := lift (decode_output (er_output result)) in
  let stderr := "" in
  ret {| execution_id := execution_id;
         status := if (er_exit_code result =? 0)%Z then COMPLETED else FAILED;
         stdout := Some stdout;
         stderr := Some stderr;
         exit_code := Some (er_exit_code result);
         error_message := None;
         execution_time_seconds := Some 0.0%float |}.

(** The [except Exception as e] handler of [execute_code]. *)
Definition execute_code_except (env : Env) (e : Exception) : M ExecuteCodeResponse :=
  let* t := int_time env in
  ret {| execution_id := "exec_" ++ pretty t ++ "_error";
         status := FAILED;
         stdout := None;
         stderr := None;
         exit_code := None;
         error_message := Some (exc_str e);
         execution_time_seconds := None |}.

Definition execute_code (env : Env) (request : ExecuteCodeRequest)
  : M ExecuteCodeResponse :=
  try_except (execute_code_try env request) (execute_code_except env).

(** [ExecuteCodeRequest(language=..., ...)]: pydantic coerces the
    stored language string and raises a [ValidationError] when it is
    not a member of the enum. *)
Definition ExecuteCodeRequest_init (language_value code : string)
  (image_id : option string) (working_directory : string)
  (environment_variables : gmap string string)
  (resource_limits : ResourceLimits) (input_data : option string)
  : result ExecuteCodeRequest :=
  match Language_of_value language_value with
  | Some l =>
      Ok {| language := l; code := code; image_id := image_id;
            working_directory := working_directory;
            environment_variables := environment_variables;
            resource_limits := resource_limits;
            input_data := input_data |}
  | None => Raise (Exc ValidationError "1 validation error for ExecuteCodeRequest")
  end.

Definition execute_uploaded_file (env : Env) (request : FileExecutionRequest)
  : M ExecuteCodeResponse :=
  match FileManager.get_file (uploads env) (file_id request) with
  | None =>
      let* t := int_time env in
      ret {| execution_id := "exec_" ++ pretty t ++ "_error";
             status := FAILED;
             stdout := None;
             stderr := None;
             exit_code := None;
             error_message := Some "File not found";
             execution_time_seconds := None |}
  | Some file_info =>
      let* execute_request :=
        lift (ExecuteCodeRequest_init
                (FileManager.md_language (FileManager.fi_metadata file_info))
                (FileManager.fi_content file_info)
                (fer_image_id request)
                (fer_working_directory request)
                (fer_environment_variables request)
                (fer_resource_limits request)
                (fer_input_data request)) in
      execute_code env execute_request
  end.

(** *** Package installation *)

Definition package_spec (package_name : string) (package_version : option string) : string :=
  if truthy package_version
  then package_name ++ "==" ++ default "" package_version
  else package_name.

Definition _get_package_install_command (language : Language)
  (package_name : string) (package_version : option string) : string :=
  let spec := package_spec package_name package_version in
  match language with
  | PYTHON => "RUN pip install " ++ spec
  | NODE => "RUN npm install -g " ++ spec
  | CSHARP =>
      "RUN mkdir -p /workspace && cd /workspace && " ++ bslash ++ nl
      ++ "dotnet new console --force && " ++ bslash ++ nl
      ++ "dotnet add package " ++ spec
  | BASH => "RUN apt-get update && apt-get install -y " ++ spec
  end.

Definition ascii_in (lo hi a : ascii) : bool :=
  (nat_of_ascii lo <=? nat_of_ascii a)%nat && (nat_of_ascii a <=? nat_of_ascii hi)%nat.

(** [re.sub(r"[^a-zA-Z0-9-]", "-", s)]. *)
Definition dash_others (a : ascii) : ascii :=
  if ascii_in "a" "z" a || ascii_in "A" "Z" a || ascii_in "0" "9" a || Ascii.eqb a "-"
  then a else "-"%char.

(** [str.lower] on one character. *)
Definition lower (a : ascii) : ascii :=
  if ascii_in "A" "Z" a then ascii_of_nat (nat_of_ascii a + 32) else a.

Fixpoint map_string (f : ascii -> ascii) (s : string) : string :=
  match s with
  | EmptyString => EmptyString
  | String a r => String (f a) (map_string f r)
  end.

(** [re.sub(r"-+", "-", s)]. *)
Fixpoint squeeze_dashes (s : string) : string :=
  match s with
  | EmptyString => EmptyString
  | String a r =>
      match r with
      | String b _ =>
          if Ascii.eqb a "-" && Ascii.eqb b "-" then squeeze_dashes r
          else String a (squeeze_dashes r)
      | EmptyString => String a EmptyString
      end
  end.

Fixpoint lstrip_dashes (s : string) : string :=
  match s with
  | String a r => if Ascii.eqb a "-" then lstrip_dashes r else s
  | EmptyString => EmptyString
  end.

(** [s.strip("-")]. *)
Definition strip_dashes (s : string) : string :=
  String.rev (lstrip_dashes (String.rev (lstrip_dashes s))).

Definition safe_package_name (package_name : string) : string :=
  strip_dashes (squeeze_dashes (map_string lower (map_string dash_others package_name))).

Definition install_failure (msg : string) : InstallPackageResponse :=
  {| ipr_success := false; new_image_id := None; ipr_build_logs := [];
     ipr_error_message := Some msg |}.

Definition _build_image_with_package (env : Env) (request : InstallPackageRequest)
  : M InstallPackageResponse :=
  try_except
    ((* the inner [try]: its [except ImageNotFound] returns at once,
        any other exception goes on to the outer handler *)
     let* base_image :=
       try_except
         (let* image := engine_call (images_get_call (ipr_image_id request))
                          (fun h => images_get (engine env) h (ipr_image_id request)) in
          ret (inr image))
         (fun e =>
            if isinstance e ImageNotFound
            then ret (inl (install_failure
                             ("Base image not found: " ++ ipr_image_id request)))
            else raise e) in
     match base_image with
     | inl response => ret response
     | inr _ =>
         let install_command :=
           _get_package_install_command (ipr_language request)
             (package_name request) (package_version request) in
         let dockerfile_content :=
           nl ++ "FROM " ++ ipr_image_id request ++ nl
           ++ "USER root" ++ nl
           ++ install_command ++ nl
           ++ "USER sandboxuser" ++ nl in
         let safe := safe_package_name (package_name request) in
         let* t := int_time env in
         let new_image_name := "mcp-executor-with-" ++ safe ++ "-" ++ pretty t in
         let tag := new_image_name ++ ":latest" in
         let* built := engine_call (images_build_call dockerfile_content tag false)
                         (fun h => images_build (engine env) h dockerfile_content tag false) in
         ret {| ipr_success := true;
                new_image_id := image_ident (fst built);
                ipr_build_logs := render_log <$> snd built;
                ipr_error_message := None |}
     end)
    (fun e => ret (install_failure ("Build failed: " ++ exc_str e))).

(** The [exec_run] argument vector of the in-place strategy. *)
Definition install_cmd (language : Language) (spec : string) : list string :=
  match language with
  | PYTHON => ["pip"; "install"; spec]
  | NODE => ["npm"; "install"; "-g"; spec]
  | CSHARP =>
      ["bash"; "-c";
       "mkdir -p /workspace && cd /workspace && "
       ++ "dotnet new console --force && dotnet add package " ++ spec]
  | BASH => ["bash"; "-c"; "apt-get update && apt-get install -y " ++ spec]
  end.

Definition install_user (language : Language) : option string :=
  match language with
  | NODE | CSHARP => Some "root"
  | _ => None
  end.

(** [result.output.decode() if result.output else fallback]. *)
Definition decode_or (output : option bytes) (fallback : string) : result string :=
  match output with
  | Some (b :: bs) => bytes_decode (b :: bs)
  | _ => Ok fallback
  end.

Definition _install_package_in_container (env : Env) (request : InstallPackageRequest)
  : M InstallPackageResponse :=
  try_except
    (let* containers :=
       engine_call (containers_list_call (ipr_image_id request))
         (fun h => containers_list (engine env) h (ipr_image_id request)) in
     match containers with
     | [] => ret (install_failure "No running containers found for the specified image")
     | container :: _ =>
         let spec := package_spec (package_name request) (package_version request) in
         let cmd := install_cmd (ipr_language request) spec in
         let user := install_user (ipr_language request) in
         let* result :=
           engine_call (container_exec_run_call container cmd user)
             (fun h => container_exec_run (engine env) h container cmd user) in
         if (er_exit_code result =? 0)%Z then
           let* log := lift (decode_or (er_output result) "Package installed successfully") in
           ret {| ipr_success := true; new_image_id := None;
                  ipr_build_logs := [log]; ipr_error_message := None |}
         else
           let* output_msg := lift (decode_or (er_output result) "Unknown error") in
           ret (install_failure ("Package installation failed: " ++ output_msg))
     end)
    (fun e => ret (install_failure ("Package installation failed: " ++ exc_str e))).

Definition install_package (env : Env) (request : InstallPackageRequest)
  : M InstallPackageResponse :=
  try_except
    (if build_new_image request
     then _build_image_with_package env request
     else _install_package_in_container env request)
    (fun e => ret (install_failure (exc_str e))).

(** *** Streaming executions *)

(** [execute_code] reads the same attributes from a
    [StreamExecutionRequest]; it never reads [input_data]. *)
Definition as_execute_request (r : StreamExecutionRequest) : ExecuteCodeRequest :=
  {| language := ser_language r; code := ser_code r; image_id := ser_image_id r;
     working_directory := ser_working_directory r;
     environment_variables := ser_environment_variables r;
     resource_limits := ser_resource_limits r;
     input_data := None |}.

Definition set_status (v : string) (r : StreamRecord) : StreamRecord :=
  {| sr_request := sr_request r; sr_status := v; sr_start_time := sr_start_time r;
     sr_logs := sr_logs r; sr_task := sr_task r; sr_response := sr_response r;
     sr_end_time := sr_end_time r; sr_error := sr_error r |}.

Definition set_task (v : nat) (r : StreamRecord) : StreamRecord :=
  {| sr_request := sr_request r; sr_status := sr_status r; sr_start_time := sr_start_time r;
     sr_logs := sr_logs r; sr_task := Some v; sr_response := sr_response r;
     sr_end_time := sr_end_time r; sr_error := sr_error r |}.

Definition set_response (v : ExecuteCodeResponse) (r : StreamRecord) : StreamRecord :=
  {| sr_request := sr_request r; sr_status := sr_status r; sr_start_time := sr_start_time r;
     sr_logs := sr_logs r; sr_task := sr_task r; sr_response := Some v;
     sr_end_time := sr_end_time r; sr_error := sr_error r |}.

Definition set_end_time (v : Q) (r : StreamRecord) : StreamRecord :=
  {| sr_request := sr_request r; sr_status := sr_status r; sr_start_time := sr_start_time r;
     sr_logs := sr_logs r; sr_task := sr_task r; sr_response := sr_response r;
     sr_end_time := Some v; sr_error := sr_error r |}.

Definition set_error (v : string) (r : StreamRecord) : StreamRecord :=
  {| sr_request := sr_request r; sr_status := sr_status r; sr_start_time := sr_start_time r;
     sr_logs := sr_logs r; sr_task := sr_task r; sr_response := sr_response r;
     sr_end_time := sr_end_time r; sr_error := Some v |}.

(** A new dict object; its reference is returned. *)
Definition alloc (r : StreamRecord) : M nat :=
  fun s => (with_objects (fun o => (o ++ [r])%list) s, Ok (length (objects s))).

(** [obj[key] = v] through a reference. *)
Definition update_object (ref : nat) (f : StreamRecord -> StreamRecord) : M unit :=
  modify (with_objects (alter f ref)).

(** [self.streaming_executions[execution_id][key] = v]. *)
Definition update_tracked (execution_id : string) (f : StreamRecord -> StreamRecord)
  : M unit :=
  let* s := get in
  match streaming_executions s !! execution_id with
  | Some ref => update_object ref f
  | None => raise (Exc KeyError ("'" ++ execution_id ++ "'"))
  end.

(** [asyncio.create_task(self._monitor_streaming_execution(execution_id))]:
    the task is queued; it runs when the event loop next takes it. *)
Definition create_task (env : Env) (execution_id : string) : M nat :=
  let* s := get in
  let task := next_task s in
  do* lift (asyncio_create_task env task) in
  do* modify (with_next_task (S task)) in
  do* modify (with_pending_tasks (fun p => (p ++ [(task, execution_id)])%list)) in
  ret task.

(** The handler shared by the two streaming methods: mark the tracked
    record failed when it is there. *)
Definition mark_failed (execution_id : string) (e : Exception) : M unit :=
  let* s := get in
  if bool_decide (is_Some (streaming_executions s !! execution_id)) then
    do* update_tracked execution_id (set_status "failed") in
    update_tracked execution_id (set_error (exc_str e))
  else ret tt.

Definition start_streaming_execution (env : Env) (execution_id : string)
  (request : StreamExecutionRequest) : M unit :=
  try_except
    (let* start_time := time_time env in
     let* ref := alloc {| sr_request := request; sr_status := "running";
                          sr_start_time := start_time; sr_logs := [];
                          sr_task := None; sr_response := None;
                          sr_end_time := None; sr_error := None |} in
     do* modify (with_streaming_executions <[execution_id := ref]>) in
     let* task := create_task env execution_id in
     update_tracked execution_id (set_task task))
    (mark_failed execution_id).

Definition _monitor_streaming_execution (env : Env) (execution_id : string) : M unit :=
  try_except
    (let* s := get in
     match streaming_executions s !! execution_id with
     | None => ret tt
     | Some ref =>
         match objects s !! ref with
         | None => ret tt   (* a reference always points to an object *)
         | Some execution_data =>
             let* response :=
               execute_code env (as_execute_request (sr_request execution_data)) in
             do* update_object ref
                   (set_status (if bool_decide (status response = COMPLETED)
                                then "completed" else "failed")) in
             do* update_object ref (set_response response) in
             let* end_time := time_time env in
             update_object ref (set_end_time end_time)
         end
     end)
    (mark_failed execution_id).

(** The event loop takes a queued monitor task and runs it to its end;
    [execute_code] has no suspension point, so nothing interleaves. *)
Definition run_task (env : Env) (task : nat) : M unit :=
  let* s := get in
  match List.find (fun p => Nat.eqb (fst p) task) (pending_tasks s) with
  | Some (_, execution_id) =>
      do* modify (with_pending_tasks (List.filter (fun p => negb (Nat.eqb (fst p) task)))) in
      _monitor_streaming_execution env execution_id
  | None => ret tt
  end.

(** [get_execution_progress]: the tracked record, or nothing. *)
Definition get_execution_progress (s : State) (execution_id : string)
  : option StreamRecord :=
  match streaming_executions s !! execution_id with
  | Some ref => objects s !! ref
  | None => None
  end.

(** What a caller of the manager can do, one atomic step each. *)
Inductive Operation :=
| op_execute (request : ExecuteCodeRequest)
| op_start_streaming (execution_id : string) (request : StreamExecutionRequest)
| op_run_task (task : nat).

Definition apply (env : Env) (op : Operation) (s : State) : State :=
  match op with
  | op_execute request => fst (execute_code env request s)
  | op_start_streaming execution_id request =>
      fst (start_streaming_execution env execution_id request s)
  | op_run_task task => fst (run_task env task s)
  end.

Definition apply_all (env : Env) (ops : list Operation) (s : State) : State :=
  foldl (fun s op => apply env op s) s ops.

End DockerManager.

(** ** Vocabulary of the properties *)

Module Spec.
Import DockerManager.

(** The engine's reply to a call made after history [h], kept only when
    it is an exception. *)
Definition call_raises (env : Env) (h : list Call) (c : Call) : option Exception :=
  let err {A} (r : result A) : option Exception :=
    match r with Raise e => Some e | Ok _ => None end in
  match c with
  | containers_create_call args => err (containers_create (engine env) h args)
  | container_start_call k => err (container_start (engine env) h k)
  | container_exec_run_call k cmd user => err (container_exec_run (engine env) h k cmd user)
  | container_stop_call k => err (container_stop (engine env) h k)
  | container_remove_call k => err (container_remove (engine env) h k)
  | images_get_call name => err (images_get (engine env) h name)
  | images_build_call d t n => err (images_build (engine env) h d t n)
  | containers_list_call a => err (containers_list (engine env) h a)
  end.

(** The exceptions the engine raised on the calls [calls], made in
    this order after history [h]. *)
Fixpoint faults (env : Env) (h : list Call) (calls : list Call) : list Exception :=
  match calls with
  | [] => []
  | c :: rest =>
      match call_raises env h c with
      | Some e => e :: faults env (h ++ [c]) rest
      | None => faults env (h ++ [c]) rest
      end
  end.

(** The calls a step added to the log. *)
Definition new_calls (s s' : State) : list Call :=
  drop (length (engine_log s)) (engine_log s').

(** The transient file or directory an invocation of the command
    synthesizer names: the clock is read when the invocation starts,
    and the name is built from that reading. *)
Definition temp_name (env : Env) (request : ExecuteCodeRequest) (s : State)
  : option string :=
  let timestamp := int_of_time (clock env (clock_reads s)) in
  match language request with
  | PYTHON => Some (exec_path timestamp ".py")
  | NODE => Some (exec_path timestamp ".js")
  | CSHARP => Some (csharp_dir timestamp)
  | BASH => None
  end.

Definition terminal_status (st : ExecutionStatus) : bool :=
  bool_decide (st = COMPLETED) || bool_decide (st = FAILED).






End Spec.

(** ** Sample worlds *)

Module Samples.

Definition a_container : Container := {| container_id := Some "0123456789abcdef" |}.

Definition an_image : Image := {| image_ident := Some "sha256:feedbeef" |}.

(** An engine whose [start] and [images.get] replies are given and
    whose command exits with [exit]. *)
Definition sample_engine (start : result unit) (get : result Image) (exit : Z) : Engine :=
  {| containers_create := fun _ _ => Ok a_container;
     container_start := fun _ _ => start;
     container_exec_run := fun _ _ _ _ =>
       Ok {| er_exit_code := exit; er_output := Some (str_encode "1") |};
     container_stop := fun _ _ => Ok tt;
     container_remove := fun _ _ => Ok tt;
     images_get := fun _ _ => get;
     images_build := fun _ _ _ _ => Ok (an_image, []);
     containers_list := fun _ _ => Ok [a_container] |}.

Definition no_uploads : FileManager.FileSystem :=
  {| FileManager.upload_dir := "uploads"; FileManager.files := ∅ |}.

Definition sample_env (e : Engine) (dockerfile : option (result string))
  (fs : FileManager.FileSystem) : Env :=
  {| engine := e;
     clock := fun _ => 1700000000 # 1;
     project_dockerfile := dockerfile;
     asyncio_create_task := fun _ => Ok tt;
     uploads := fs |}.

(** A world whose clock advances one second per reading. *)
Definition ticking_env : Env :=
  {| engine := sample_engine (Ok tt) (Ok an_image) 0;
     clock := fun n => (1700000000 + Z.of_nat n) # 1;
     project_dockerfile := None;
     asyncio_create_task := fun _ => Ok tt;
     uploads := no_uploads |}.

Definition healthy_env : Env :=
  sample_env (sample_engine (Ok tt) (Ok an_image) 0) None no_uploads.

(** [container.start()] fails. *)
Definition start_fails_env : Env :=
  sample_env (sample_engine (Raise (Exc APIError "cannot start container"))
                (Ok an_image) 0) None no_uploads.

Definition python_request : ExecuteCodeRequest :=
  {| language := PYTHON; code := "print(1)"; image_id := None;
     working_directory := "/workspace"; environment_variables := ∅;
     resource_limits := ResourceLimits_default; input_data := None |}.

(** [images.get] finds nothing. *)
Definition missing_image_env : Env :=
  sample_env (sample_engine (Ok tt)
                (Raise (Exc ImageNotFound "No such image: ghost:latest")) 0)
    None no_uploads.

Definition stream_request : StreamExecutionRequest :=
  {| ser_language := PYTHON; ser_code := "print(1)"; ser_image_id := None;
     ser_working_directory := "/workspace"; ser_environment_variables := ∅;
     ser_resource_limits := ResourceLimits_default |}.

Definition install_request : InstallPackageRequest :=
  {| ipr_image_id := "ghost:latest"; ipr_language := PYTHON;
     package_name := "requests"; build_new_image := true;
     package_version := None |}.

(** An upload directory holding one Python file, as [upload_file]
    leaves it. *)
Definition hello_metadata : FileManager.Metadata :=
  {| FileManager.md_file_id := "f1";
     FileManager.md_filename := "hello.py";
     FileManager.md_language := "python";
     FileManager.md_file_path := "uploads/python/f1_hello.py";
     FileManager.md_size := 8;
     FileManager.md_uploaded_at := "2024-01-01T00:00:00";
     FileManager.md_encoding := "utf-8";
     FileManager.md_binary := false |}.

Definition not_json : result FileManager.Metadata :=
  Raise (Exc ValueError "Expecting value: line 1 column 1 (char 0)").

Definition one_upload : FileManager.FileSystem :=
  {| FileManager.upload_dir := "uploads";
     FileManager.files :=
       <["uploads/python/f1_metadata.json" :=
           {| FileManager.read_text := fun _ => Ok "{}";
              FileManager.json_load := Ok hello_metadata |}]>
       (<["uploads/python/f1_hello.py" :=
           {| FileManager.read_text := fun _ => Ok "print(1)";
              FileManager.json_load := not_json |}]> ∅) |}.

Definition upload_env : Env :=
  sample_env (sample_engine (Ok tt) (Ok an_image) 0) None one_upload.

Definition file_request (id : string) : FileExecutionRequest :=
  {| file_id := id; fer_container_id := None; fer_image_id := None;
     fer_working_directory := "/workspace"; fer_environment_variables := ∅;
     fer_resource_limits := ResourceLimits_default; fer_input_data := None |}.

End Samples.

(** ** Further worlds *)

Module Scenarios.

(** An engine given by its replies to [start], [exec_run] and [stop]. *)
Definition engine_with (start : result unit) (run : result ExecResult)
  (stop : result unit) : Engine :=
  {| containers_create := fun _ _ => Ok Samples.a_container;
     container_start := fun _ _ => start;
     container_exec_run := fun _ _ _ _ => run;
     container_stop := fun _ _ => stop;
     container_remove := fun _ _ => Ok tt;
     images_get := fun _ _ => Ok Samples.an_image;
     images_build := fun _ _ _ _ => Ok (Samples.an_image, []);
     containers_list := fun _ _ => Ok [Samples.a_container] |}.



Definition printed_one : ExecResult :=
  {| er_exit_code := 0; er_output := Some (str_encode "1") |}.

(** [container.stop()] fails after the command ran. *)
Definition stop_fails_env : Env :=
  Samples.sample_env
    (engine_with (Ok tt) (Ok printed_one)
       (Raise (Exc APIError "cannot stop container")))
    None Samples.no_uploads.

(** A request that sets one baseline variable and one of its own. *)
Definition env_request : ExecuteCodeRequest :=
  {| language := PYTHON; code := "print(1)"; image_id := None;
     working_directory := "/workspace";
     environment_variables :=
       <["PYTHONUNBUFFERED" := "0"]> (<["FOO" := "bar"]> ∅);
     resource_limits := ResourceLimits_default; input_data := None |}.

Definition bash_request : ExecuteCodeRequest :=
  {| language := BASH; code := "echo hi"; image_id := None;
     working_directory := "/workspace"; environment_variables := ∅;
     resource_limits := ResourceLimits_default; input_data := None |}.

(** [images.get] fails, but not with [ImageNotFound]. *)
Definition api_error_env : Env :=
  Samples.sample_env
    (Samples.sample_engine (Ok tt) (Raise (Exc APIError "500 Server Error")) 0)
    None Samples.no_uploads.

Definition in_place_request (l : Language) : InstallPackageRequest :=
  {| ipr_image_id := "img"; ipr_language := l; package_name := "lodash";
     build_new_image := false; package_version := Some "4.17.21" |}.

(** The metadata of an upload whose language string was changed on
    disk. *)
Definition tampered_metadata : FileManager.Metadata :=
  {| FileManager.md_file_id := "f1";
     FileManager.md_filename := "hello.py";
     FileManager.md_language := "ruby";
     FileManager.md_file_path := "uploads/python/f1_hello.py";
     FileManager.md_size := 8;
     FileManager.md_uploaded_at := "2024-01-01T00:00:00";
     FileManager.md_encoding := "utf-8";
     FileManager.md_binary := false |}.

Definition tampered_upload : FileManager.FileSystem :=
  {| FileManager.upload_dir := "uploads";
     FileManager.files :=
       <["uploads/python/f1_metadata.json" :=
           {| FileManager.read_text := fun _ => Ok "{}";
              FileManager.json_load := Ok tampered_metadata |}]>
       (<["uploads/python/f1_hello.py" :=
           {| FileManager.read_text := fun _ => Ok "print(1)";
              FileManager.json_load := Samples.not_json |}]> ∅) |}.

Definition tampered_env : Env :=
  Samples.sample_env (Samples.sample_engine (Ok tt) (Ok Samples.an_image) 0)
    None tampered_upload.

(** A metadata file in the python directory that is not JSON, and a good
    upload under the same id in the node directory. *)
Definition shadowed_upload : FileManager.FileSystem :=
  {| FileManager.upload_dir := "uploads";
     FileManager.files :=
       <["uploads/python/f1_metadata.json" :=
           {| FileManager.read_text := fun _ => Ok "oops";
              FileManager.json_load := Samples.not_json |}]>
       (<["uploads/node/f1_metadata.json" :=
           {| FileManager.read_text := fun _ => Ok "{}";
              FileManager.json_load := Ok Samples.hello_metadata |}]>
        (<["uploads/python/f1_hello.py" :=
           {| FileManager.read_text := fun _ => Ok "print(1)";
              FileManager.json_load := Samples.not_json |}]> ∅)) |}.

Definition csharp_request : ExecuteCodeRequest :=
  {| language := CSHARP; code := "System.Console.WriteLine(1);"; image_id := None;
     working_directory := "/workspace"; environment_variables := ∅;
     resource_limits := ResourceLimits_default; input_data := None |}.

(** The project's Dockerfile is there and cannot be read. *)
Definition unreadable_dockerfile_env : Env :=
  Samples.sample_env (Samples.sample_engine (Ok tt) (Ok Samples.an_image) 0)
    (Some (Raise (Exc OSError "[Errno 13] Permission denied: 'Dockerfile'")))
    Samples.no_uploads.

Definition image_request (langs : list Language) (name custom : option string)
  : CreateImageRequest :=
  {| languages := langs; requirements := ∅; image_name := name;
     custom_dockerfile := custom; base_os := "ubuntu:22.04" |}.

End Scenarios.

(** ** Vocabulary for texts *)

Module Text.

(** Every character of the string passes the test. *)
Fixpoint string_forallb (p : ascii -> bool) (s : string) : bool :=
  match s with
  | EmptyString => true
  | String a r => p a && string_forallb p r
  end.

Fixpoint string_mem (a : ascii) (s : string) : bool :=
  match s with
  | EmptyString => false
  | String b r => Ascii.eqb a b || string_mem a r
  end.

(** A character base64 text is made of. *)
Definition b64_symbol (a : ascii) : bool :=
  string_mem a b64_alphabet || Ascii.eqb a "=".

Definition not_quote (a : ascii) : bool := negb (Ascii.eqb a "'").





(** A character that [repr] of a string shows as it is, between single
    quotes: printable ASCII other than the single quote and the
    backslash. *)
Definition shown_as_is (a : ascii) : bool :=
  let n := nat_of_ascii a in
  (32 <=? n)%nat && (n <=? 126)%nat && negb (n =? 39)%nat && negb (n =? 92)%nat.

(** The text begins with the prefix. *)
Fixpoint starts_with (p s : string) : bool :=
  match p with
  | EmptyString => true
  | String a p' =>
      match s with
      | String b s' => Ascii.eqb a b && starts_with p' s'
      | EmptyString => false
      end
  end.

End Text.

(** ** mcp_server.py *)

Module McpServer.
Import DockerManager.

(** What the body of a tool can raise: an exception of the manager or of
    pydantic, the [ValueError] of [Language(value)], the [AttributeError]
    of an attribute a response model does not have, and the [TypeError]
    of formatting [None] with [:.2f]. *)
Inductive Fault :=
| raised (e : Exception)
| not_a_language (value : string)
| no_attribute (class attribute : string)
| none_format.

(** [str(e)] of these.  The value is shown as [repr] shows a string of
    characters that are [Text.shown_as_is]; a validation error of pydantic
    is given by the first line of its message. *)
Definition fault_str (f : Fault) : string :=
  match f with
  | raised e => exc_str e
  | not_a_language value => "'" ++ value ++ "' is not a valid Language"
  | no_attribute class attribute =>
      "'" ++ class ++ "' object has no attribute '" ++ attribute ++ "'"
  | none_format => "unsupported format string passed to NoneType.__format__"
  end.

(** The body of a tool: state passing, with a fault or a value. *)
Definition Tool (A : Type) : Type := State -> State * (Fault + A).

Definition tool_ret {A} (a : A) : Tool A := fun s => (s, inr a).

Definition tool_fail {A} (f : Fault) : Tool A := fun s => (s, inl f).

Definition tool_bind {A B} (m : Tool A) (k : A -> Tool B) : Tool B :=
  fun s =>
    match m s with
    | (s', inr a) => k a s'
    | (s', inl f) => (s', inl f)
    end.

(** A call of a method of the manager. *)
Definition call {A} (m : M A) : Tool A :=
  fun s =>
    match m s with
    | (s', Ok a) => (s', inr a)
    | (s', Raise e) => (s', inl (raised e))
    end.

(** [try: body  except Exception as e: return f"{prefix}{e!s}"]. *)
Definition tool (prefix : string) (body : Tool string) : State -> State * string :=
  fun s =>
    match body s with
    | (s', inr text) => (s', text)
    | (s', inl f) => (s', prefix ++ fault_str f)
    end.

Notation "'let+' x ':=' m 'in' k" := (tool_bind m (fun x => k))
  (at level 10, x name, m at level 100, k at level 200, only parsing).

(** [Language(value)]. *)
Definition Language_call (value : string) : Tool Language :=
  match Language_of_value value with
  | Some l => tool_ret l
  | None => tool_fail (not_a_language value)
  end.

(** [[LangEnum(lang) for lang in languages]]. *)
Fixpoint Language_calls (values : list string) : Tool (list Language) :=
  match values with
  | [] => tool_ret []
  | v :: rest =>
      let+ l := Language_call v in
      let+ ls := Language_calls rest in
      tool_ret (l :: ls)
  end.

Definition ExecutionStatus_value (st : ExecutionStatus) : string :=
  match st with
  | PENDING => "pending"
  | RUNNING => "running"
  | COMPLETED => "completed"
  | FAILED => "failed"
  | TIMEOUT => "timeout"
  end.

(** [str(x)] of an optional string and of an optional integer. *)
Definition str_of_option (o : option string) : string := default "None" o.

Definition str_of_option_int (o : option Z) : string :=
  match o with
  | Some z => pretty z
  | None => "None"
  end.

(** [f"{x:.2f}"] for an optional float; [format_2f] is the rendering of
    a float with two decimals. *)
Definition format_seconds (format_2f : float -> string) (o : option float)
  : Tool string :=
  match o with
  | Some x => tool_ret (format_2f x)
  | None => tool_fail none_format
  end.

(** The text of an execution result, used by two tools. *)
Definition result_text (format_2f : float -> string) (title : string)
  (result : ExecuteCodeResponse) : Tool string :=
  let+ seconds := format_seconds format_2f (execution_time_seconds result) in
  let response_text :=
    title ++ nl
    ++ "- Execution ID: " ++ execution_id result ++ nl
    ++ "- Status: " ++ ExecutionStatus_value (status result) ++ nl
    ++ "- Exit Code: " ++ str_of_option_int (exit_code result) ++ nl
    ++ "- Execution Time: " ++ seconds ++ "s" ++ nl
    ++ nl
    ++ "STDOUT:" ++ nl
    ++ str_of_option (stdout result) ++ nl
    ++ nl
    ++ "STDERR:" ++ nl
    ++ str_of_option (stderr result) in
  tool_ret (if truthy (error_message result)
            then response_text ++ nl ++ "Error: " ++ default "" (error_message result)
            else response_text).

(** The [execute_code] tool.  [timeout_seconds] is passed to the request
    model, which has no such field and drops it. *)
Definition execute_code (format_2f : float -> string) (env : Env)
  (language code image_id working_directory : string) (timeout_seconds : Z)
  : State -> State * string :=
  tool "Error executing code: "
    (let+ lang_enum := Language_call language in
     let request :=
       {| Models.language := lang_enum; Models.code := code;
          Models.image_id := Some image_id;
          Models.working_directory := working_directory;
          environment_variables := ∅;
          resource_limits := ResourceLimits_default;
          input_data := None |} in
     let+ result := call (DockerManager.execute_code env request) in
     result_text format_2f "Execution Result:" result).

(** [CreateImageRequest(languages=..., image_name=...)]: the list must
    not be empty. *)
Definition CreateImageRequest_call (languages : list Language) (image_name : string)
  : Tool CreateImageRequest :=
  match languages with
  | [] => tool_fail (raised (Exc ValidationError
                               "1 validation error for CreateImageRequest"))
  | _ =>
      tool_ret {| Models.languages := languages; requirements := ∅;
                  Models.image_name := Some image_name;
                  custom_dockerfile := None; base_os := "ubuntu:22.04" |}
  end.

(** The [create_image] tool.  The text of a success reads
    [result.build_time_seconds], which [CreateImageResponse] does not
    have. *)
Definition create_image (env : Env) (languages : list string) (image_name : string)
  : State -> State * string :=
  tool "Error creating image: "
    (let+ lang_enums := Language_calls languages in
     let+ request := CreateImageRequest_call lang_enums image_name in
     let+ result := call (DockerManager.create_image env request) in
     if cir_success result
     then tool_fail (no_attribute "CreateImageResponse" "build_time_seconds")
     else tool_ret ("Failed to create image: "
                    ++ str_of_option (cir_error_message result))).

(** [InstallPackageRequest(...)]: [image_id] must be a string. *)
Definition InstallPackageRequest_call (package_name : string) (language : Language)
  (image_id : option string) (build_new_image : bool) : Tool InstallPackageRequest :=
  match image_id with
  | None => tool_fail (raised (Exc ValidationError
                                 "1 validation error for InstallPackageRequest"))
  | Some image =>
      tool_ret {| ipr_image_id := image; ipr_language := language;
                  Models.package_name := package_name;
                  Models.build_new_image := build_new_image;
                  package_version := None |}
  end.

(** The [install_package] tool.  The text of a success reads
    [result.installation_time_seconds], which [InstallPackageResponse]
    does not have. *)
Definition install_package (env : Env) (package_name language : string)
  (image_id : option string) (build_new_image : bool) : State -> State * string :=
  tool "Error installing package: "
    (let+ lang_enum := Language_call language in
     let+ request :=
       InstallPackageRequest_call package_name lang_enum image_id build_new_image in
     let+ result := call (DockerManager.install_package env request) in
     if ipr_success result
     then tool_fail (no_attribute "InstallPackageResponse" "installation_time_seconds")
     else tool_ret ("Failed to install package: "
                    ++ str_of_option (ipr_error_message result))).

(** The [execute_uploaded_file] tool. *)
Definition execute_uploaded_file (format_2f : float -> string) (env : Env)
  (file_id image_id : string) : State -> State * string :=
  tool "Error executing uploaded file: "
    (let request :=
       {| Models.file_id := file_id; fer_container_id := None;
          fer_image_id := Some image_id;
          fer_working_directory := "/workspace";
          fer_environment_variables := ∅;
          fer_resource_limits := ResourceLimits_default;
          fer_input_data := None |} in
     let+ result := call (DockerManager.execute_uploaded_file env request) in
     result_text format_2f "File Execution Result:" result).

End McpServer.

(** * Properties *)

Import DockerManager Spec.

(** ** Running the monad *)

Lemma prepare_returns env request s :
  exists n command,
    _prepare_code_execution env request s
    = (with_clock_reads n s, Ok (command, None)).
Proof.
  unfold _prepare_code_execution.
  destruct (language request); destruct s; eexists _, _; reflexivity.
Qed.

Lemma new_calls_app s s' l :
  engine_log s' = (engine_log s ++ l)%list -> new_calls s s' = l.
Proof.
  intros H. unfold new_calls. rewrite H. apply drop_app_length.
Qed.

Lemma new_calls_same s s' :
  engine_log s' = engine_log s -> new_calls s s' = [].
Proof.
  intros H. unfold new_calls. rewrite H. by rewrite drop_all.
Qed.

Lemma snoc3 {A} (h : list A) a b c :
  (((h ++ [a]) ++ [b]) ++ [c] = h ++ [a; b; c])%list.
Proof. by rewrite <- !app_assoc. Qed.

Ltac unfold_monad H :=
  cbv [bind lift engine_call modify ret raise get try_except time_time int_time
       del_active_container] in H.

Ltac simpl_state H :=
  cbn [engine_log clock_reads active_containers streaming_executions objects
       pending_tasks next_task with_clock_reads with_engine_log
       with_active_containers with_streaming_executions with_objects
       with_pending_tasks with_next_task fst snd] in H.

Ltac simpl_state_goal :=
  cbn [engine_log clock_reads active_containers streaming_executions objects
       pending_tasks next_task with_clock_reads with_engine_log
       with_active_containers with_streaming_executions with_objects
       with_pending_tasks with_next_task fst snd].

(** The new part of a log whose shape is known. *)
Ltac new_calls_in H :=
  first [ rewrite new_calls_same in H by reflexivity
        | erewrite new_calls_app in H
            by (simpl_state_goal; rewrite <- ?app_assoc; reflexivity) ];
  cbn [faults call_raises app] in H.

(** Membership in a list that is written out. *)
Ltac in_literal H :=
  repeat (apply elem_of_cons in H as [H|H]; [simplify_eq|]);
  try (by apply elem_of_nil in H).

(** Walk through the [try] of [execute_code], one engine reply at a time:
    eight goals, one for each place the body can stop, with [out] replaced
    by what the body gives there. *)
Ltac run_execute_code env request s out :=
  let Hout := fresh "Hout" in
  remember (execute_code_try env request s) as out eqn:Hout;
  unfold execute_code_try in Hout;
  destruct (prepare_returns env request s) as (n & command & Hp);
  unfold bind at 1 in Hout; rewrite Hp in Hout;
  unfold_monad Hout; simpl_state Hout;
  destruct (int_of_float _) as [quota|e0] eqn:Hq;
  [ destruct (containers_create _ _ _) as [k|e0] eqn:Hc;
    [ destruct (container_start _ _ _) as [[]|e0] eqn:Hs;
      [ destruct (container_exec_run _ _ _ _ _) as [res|e0] eqn:Hx;
        [ destruct (container_stop _ _ _) as [[]|e0] eqn:Ht;
          [ destruct (container_remove _ _ _) as [[]|e0] eqn:Hr;
            [ rewrite lookup_insert_eq in Hout; simpl_state Hout;
              destruct (decode_output _) as [text|e0] eqn:Hd
            | ]
          | ]
        | ]
      | ]
    | ]
  | ];
  subst out;
  unfold execute_code_except; cbv [bind ret int_time time_time].

(** ** The execution engine *)

(** C2.  [execute_code] returns a response from every state and for every
    behaviour of the engine, never an exception.  An engine call that
    raised during the execution gives a failed response carrying that
    exception's text, and so does any other exception in the body.  When
    the body runs to its end the response carries the exit code the
    engine reported for the command, with status completed for 0 and
    failed otherwise. *)
Theorem execute_code_never_raises env request s :
  exists s' r,
    execute_code env request s = (s', Ok r)
    /\ (forall e, e ∈ faults env (engine_log s) (new_calls s s') ->
        status r = FAILED /\ error_message r = Some (exc_str e))
    /\ match execute_code_try env request s with
       | (_, Raise e) => status r = FAILED /\ error_message r = Some (exc_str e)
       | (_, Ok _) =>
           exists h k cmd res,
             engine_log s' = (h ++ [container_exec_run_call k cmd (Some "root");
                                    container_stop_call k; container_remove_call k])%list
             /\ container_exec_run (engine env) h k cmd (Some "root") = Ok res
             /\ exit_code r = Some (er_exit_code res)
             /\ status r = (if (er_exit_code res =? 0)%Z then COMPLETED else FAILED)
       end.
Proof.
  unfold execute_code, try_except.
  run_execute_code env request s out.
  all: eexists _, _; (split; [reflexivity|]); split;
    [ intros e He; new_calls_in He;
      rewrite ?Hc, ?Hs, ?Hx, ?Ht, ?Hr in He; by in_literal He | ].
  2-8: done.
  eexists _, _, _, _. simpl_state_goal. split; [apply snoc3|].
  split; [exact Hx|]. done.
Qed.

(** C10.  When the body of [execute_code] raises nothing, the response
    has [stderr] equal to the empty string and an execution time of
    exactly 0.0, whatever the command printed and however long it ran;
    when the body raises, both fields are [None]. *)
Theorem execute_code_stderr_and_time env request s :
  exists s' r,
    execute_code env request s = (s', Ok r)
    /\ match execute_code_try env request s with
       | (_, Ok _) =>
           stderr r = Some "" /\ execution_time_seconds r = Some 0.0%float
       | (_, Raise _) =>
           stderr r = None /\ execution_time_seconds r = None
       end.
Proof.
  unfold execute_code, try_except.
  run_execute_code env request s out.
  all: eexists _, _; (split; [reflexivity|]); done.
Qed.

(** ** Resource limits *)

Lemma rejects_fields m c t :
  let errors := ResourceLimits_errors m c t in
  rejects_field errors "memory_mb" = negb ((64 <=? m)%Z && (m <=? 8192)%Z)
  /\ rejects_field errors "cpu_cores" = negb ((0.1 <=? c)%float && (c <=? 8.0)%float)
  /\ rejects_field errors "timeout_seconds" = negb ((10 <=? t)%Z && (t <=? 3600)%Z)
  /\ (errors = [] <-> ((64 <=? m)%Z && (m <=? 8192)%Z)
                      && ((0.1 <=? c)%float && (c <=? 8.0)%float)
                      && ((10 <=? t)%Z && (t <=? 3600)%Z) = true).
Proof.
  unfold ResourceLimits_errors, check_int, check_float.
  destruct (64 <=? m)%Z, (m <=? 8192)%Z, (0.1 <=? c)%float, (c <=? 8.0)%float,
    (10 <=? t)%Z, (t <=? 3600)%Z; cbn; done.
Qed.

(** C3.  Construction of a [ResourceLimits] is a pure check of the three
    numeric fields: [memory_mb] is accepted exactly in 64..8192,
    [cpu_cores] exactly in 0.1..8.0 and [timeout_seconds] exactly in
    10..3600, and a model is built exactly when all three are accepted.
    At the bounds: 63 and 8193 are rejected and 64 and 8192 accepted for
    the memory, 9 and 3601 against 10 and 3600 for the timeout, values
    below 0.1 and above 8.0 against 0.1 and 8.0 for the cores. *)
Theorem ResourceLimits_init_accepts m c t n :
  let errors := ResourceLimits_errors m c t in
  (rejects_field errors "memory_mb" = false <-> (64 <= m <= 8192)%Z)
  /\ (rejects_field errors "cpu_cores" = false
      <-> (0.1 <=? c)%float = true /\ (c <=? 8.0)%float = true)
  /\ (rejects_field errors "timeout_seconds" = false <-> (10 <= t <= 3600)%Z)
  /\ (ResourceLimits_init m c t n
      = Valid {| memory_mb := m; cpu_cores := c; timeout_seconds := t;
                 network_enabled := n |}
      <-> (64 <= m <= 8192)%Z
          /\ ((0.1 <=? c)%float = true /\ (c <=? 8.0)%float = true)
          /\ (10 <= t <= 3600)%Z)
  /\ (rejects_field (ResourceLimits_errors 63 c t) "memory_mb" = true
      /\ rejects_field (ResourceLimits_errors 64 c t) "memory_mb" = false
      /\ rejects_field (ResourceLimits_errors 8192 c t) "memory_mb" = false
      /\ rejects_field (ResourceLimits_errors 8193 c t) "memory_mb" = true)
  /\ (rejects_field (ResourceLimits_errors m c 9) "timeout_seconds" = true
      /\ rejects_field (ResourceLimits_errors m c 10) "timeout_seconds" = false
      /\ rejects_field (ResourceLimits_errors m c 3600) "timeout_seconds" = false
      /\ rejects_field (ResourceLimits_errors m c 3601) "timeout_seconds" = true)
  /\ (rejects_field (ResourceLimits_errors m 0.09 t) "cpu_cores" = true
      /\ rejects_field (ResourceLimits_errors m 0.1 t) "cpu_cores" = false
      /\ rejects_field (ResourceLimits_errors m 8.0 t) "cpu_cores" = false
      /\ rejects_field (ResourceLimits_errors m 8.5 t) "cpu_cores" = true).
Proof.
  intros errors. subst errors.
  destruct (rejects_fields m c t) as (Hm & Hc & Ht & Hall).
  split; [|split; [|split; [|split; [|split; [|split]]]]].
  - rewrite Hm, negb_false_iff, andb_true_iff. lia.
  - by rewrite Hc, negb_false_iff, andb_true_iff.
  - rewrite Ht, negb_false_iff, andb_true_iff. lia.
  - unfold ResourceLimits_init.
    rewrite !andb_true_iff in Hall.
    split.
    + intros Hv.
      destruct (ResourceLimits_errors m c t) eqn:He; [|done].
      destruct Hall as [Hall _]. destruct Hall as [[[] []] []]; [done|].
      repeat split; try done; lia.
    + intros ([] & [] & []).
      destruct Hall as [_ Hall]. rewrite Hall; [done|].
      repeat split; try done; lia.
  - split; [|split; [|split]].
    + by destruct (rejects_fields 63 c t) as (-> & _).
    + by destruct (rejects_fields 64 c t) as (-> & _).
    + by destruct (rejects_fields 8192 c t) as (-> & _).
    + by destruct (rejects_fields 8193 c t) as (-> & _).
  - split; [|split; [|split]].
    + by destruct (rejects_fields m c 9) as (_ & _ & -> & _).
    + by destruct (rejects_fields m c 10) as (_ & _ & -> & _).
    + by destruct (rejects_fields m c 3600) as (_ & _ & -> & _).
    + by destruct (rejects_fields m c 3601) as (_ & _ & -> & _).
  - split; [|split; [|split]].
    + by destruct (rejects_fields m 0.09 t) as (_ & -> & _).
    + by destruct (rejects_fields m 0.1 t) as (_ & -> & _).
    + by destruct (rejects_fields m 8.0 t) as (_ & -> & _).
    + by destruct (rejects_fields m 8.5 t) as (_ & -> & _).
Qed.

(** ** Teardown and the registry *)

(** On the path without exception the clean-up is done: the registry has
    no entry under the id the response carries. *)
Lemma execute_code_success_cleans_up env request s :
  match execute_code_try env request s with
  | (s', Ok r) => active_containers s' !! execution_id r = None
  | (_, Raise _) => True
  end.
Proof.
  run_execute_code env request s out; try done.
  cbn [active_containers with_active_containers with_engine_log execution_id].
  apply lookup_delete_eq.
Qed.

(** C1 (the code departs from the claim).  When [container.start()]
    raises, [execute_code] still returns a failed, hence terminal,
    response, but the container it registered stays in
    [active_containers] under the id it was given, and neither [stop] nor
    [remove] is called on it: the clean-up lines stand after the calls
    that can raise, inside the same [try]. *)
Theorem execute_code_leaks_on_start_failure env request s cpu_quota container fault :
  int_of_float (cpu_cores (resource_limits request) * 100000)%float = Ok cpu_quota ->
  (forall h, containers_create (engine env) h (create_args request cpu_quota)
             = Ok container) ->
  (forall h, container_start (engine env) h container = Raise fault) ->
  exists s' r (t : Z),
    execute_code env request s = (s', Ok r)
    /\ terminal_status (status r) = true
    /\ active_containers s' !! ("exec_" ++ pretty t ++ "_" ++ short_id container)
       = Some container
    /\ (forall c, c ∈ new_calls s s' -> is_teardown_of container c = false).
Proof.
  intros Hquota Hcreate Hstart.
  unfold execute_code, try_except.
  run_execute_code env request s out.
  all: simplify_eq.
  all: rewrite Hcreate in Hc; simplify_eq.
  all: rewrite Hstart in Hs; simplify_eq.
  eexists _, _, _. split; [reflexivity|]. split; [done|]. split.
  - simpl_state_goal. apply lookup_insert_eq.
  - intros c Hin. new_calls_in Hin. by in_literal Hin.
Qed.

(** C6 (the code departs from the claim).  Every container that
    [execute_code] creates is created with [network_disabled=False], that
    is with the network enabled, whatever [network_enabled] says in the
    request's resource limits. *)
Theorem execute_code_network_always_enabled env request s args :
  containers_create_call args ∈ new_calls s (fst (execute_code env request s)) ->
  ca_network_disabled args = false.
Proof.
  unfold execute_code, try_except.
  run_execute_code env request s out.
  all: simpl_state_goal; intros Hin; new_calls_in Hin; by in_literal Hin.
Qed.

Lemma execute_code_leaks_on_start_failure_witness :
  exists s' r (t : Z),
    execute_code Samples.start_fails_env Samples.python_request initial_state = (s', Ok r)
    /\ terminal_status (status r) = true
    /\ active_containers s' !! ("exec_" ++ pretty t ++ "_" ++ short_id Samples.a_container)
       = Some Samples.a_container
    /\ (forall c, c ∈ new_calls initial_state s' ->
        is_teardown_of Samples.a_container c = false).
Proof.
  apply (execute_code_leaks_on_start_failure Samples.start_fails_env
           Samples.python_request initial_state 100000 Samples.a_container
           (Exc APIError "cannot start container")).
  - reflexivity.
  - reflexivity.
  - reflexivity.
Defined.

Lemma execute_code_network_always_enabled_witness :
  network_enabled (resource_limits Samples.python_request) = false
  /\ ca_network_disabled (create_args Samples.python_request 100000) = false.
Proof.
  split; [reflexivity|].
  apply (execute_code_network_always_enabled Samples.healthy_env
           Samples.python_request initial_state).
  vm_compute. constructor.
Defined.

(** ** Uploaded files *)

(** C7.  When the file store resolves the id to a language and a content,
    [execute_uploaded_file] is [execute_code] on the request made of that
    language and content and of the caller's image, directory,
    environment, limits and input: same response, same effects.  When the
    id does not resolve, the response is failed with "File not found",
    and nothing happened but one reading of the clock: no engine call,
    no registry change. *)
Theorem execute_uploaded_file_refines env request s :
  match FileManager.get_file (uploads env) (file_id request) with
  | Some file_info =>
      forall l,
        Language_of_value (FileManager.md_language (FileManager.fi_metadata file_info))
        = Some l ->
        execute_uploaded_file env request s
        = execute_code env
            {| language := l;
               code := FileManager.fi_content file_info;
               image_id := fer_image_id request;
               working_directory := fer_working_directory request;
               environment_variables := fer_environment_variables request;
               resource_limits := fer_resource_limits request;
               input_data := fer_input_data request |} s
  | None =>
      execute_uploaded_file env request s
      = (with_clock_reads (S (clock_reads s)) s,
         Ok {| execution_id :=
                 "exec_" ++ pretty (int_of_time (clock env (clock_reads s))) ++ "_error";
               status := FAILED;
               stdout := None;
               stderr := None;
               exit_code := None;
               error_message := Some "File not found";
               execution_time_seconds := None |})
  end.
Proof.
  unfold execute_uploaded_file.
  destruct (FileManager.get_file _ _) as [file_info|]; [|reflexivity].
  intros l Hl. unfold ExecuteCodeRequest_init. rewrite Hl. reflexivity.
Qed.

Example get_file_resolves :
  FileManager.get_file Samples.one_upload "f1"
  = Some {| FileManager.fi_metadata := Samples.hello_metadata;
            FileManager.fi_content := "print(1)" |}
  /\ FileManager.get_file Samples.one_upload "f2" = None.
Proof. split; vm_compute; reflexivity. Qed.

Lemma execute_uploaded_file_refines_witness :
  execute_uploaded_file Samples.upload_env (Samples.file_request "f1") initial_state
  = execute_code Samples.upload_env Samples.python_request initial_state.
Proof.
  exact (execute_uploaded_file_refines Samples.upload_env (Samples.file_request "f1")
           initial_state PYTHON eq_refl).
Defined.

(** ** Package installation *)

(** C8.  Under the rebuild strategy, when [images.get] raises
    [ImageNotFound] for the source image, [install_package] returns a
    failure whose message is "Base image not found: " followed by the
    image handle, and its only engine call is that [images.get]: no
    build. *)
Theorem install_package_image_not_found env request s fault :
  build_new_image request = true ->
  images_get (engine env) (engine_log s) (ipr_image_id request) = Raise fault ->
  isinstance fault ImageNotFound = true ->
  exists s',
    install_package env request s
    = (s', Ok {| ipr_success := false; new_image_id := None; ipr_build_logs := [];
                 ipr_error_message :=
                   Some ("Base image not found: " ++ ipr_image_id request) |})
    /\ new_calls s s' = [images_get_call (ipr_image_id request)]
    /\ (forall c, c ∈ new_calls s s' -> is_build c = false).
Proof.
  intros Hnew Hget Hcls.
  unfold install_package, _build_image_with_package. rewrite Hnew.
  cbv [try_except bind engine_call ret raise]. rewrite Hget, Hcls.
  eexists. split; [reflexivity|].
  assert (Hcalls : forall s', engine_log s' = (engine_log s ++ [images_get_call (ipr_image_id request)])%list ->
            new_calls s s' = [images_get_call (ipr_image_id request)]).
  { intros s' H. by apply new_calls_app. }
  rewrite Hcalls by reflexivity.
  split; [done|]. intros c Hin. by in_literal Hin.
Qed.

Lemma install_package_image_not_found_witness :
  exists s',
    install_package Samples.missing_image_env Samples.install_request initial_state
    = (s', Ok {| ipr_success := false; new_image_id := None; ipr_build_logs := [];
                 ipr_error_message := Some "Base image not found: ghost:latest" |})
    /\ new_calls initial_state s' = [images_get_call "ghost:latest"]
    /\ (forall c, c ∈ new_calls initial_state s' -> is_build c = false).
Proof.
  apply (install_package_image_not_found Samples.missing_image_env
           Samples.install_request initial_state
           (Exc ImageNotFound "No such image: ghost:latest"));
    reflexivity.
Defined.

(** ** Command synthesis *)

Lemma string_app_cons c (a b : string) : String c a ++ b = String c (a ++ b).
Proof. reflexivity. Qed.





Lemma csharp_dir_inj t1 t2 : csharp_dir t1 = csharp_dir t2 -> t1 = t2.
Proof.
  unfold csharp_dir. intros Heq.
  apply (inj (String.app "/tmp/csharp_exec_")) in Heq.
  by apply (inj pretty) in Heq.
Qed.


(** The command an invocation returns is built around its temp name. *)
Lemma prepare_uses_temp_name env request s name :
  temp_name env request s = Some name ->
  let encoded := b64encode (str_encode (code request)) in
  let command := fst (default ("", None)
                        (match snd (_prepare_code_execution env request s) with
                         | Ok p => Some p | Raise _ => None end)) in
  match language request with
  | PYTHON => command = "echo '" ++ encoded ++ "' | base64 -d > " ++ name
                        ++ " && python3 " ++ name ++ " && rm " ++ name
  | NODE => command = "echo '" ++ encoded ++ "' | base64 -d > " ++ name
                      ++ " && node " ++ name ++ " && rm " ++ name
  | CSHARP => exists rest, command = "mkdir -p " ++ name ++ rest
  | BASH => False
  end.
Proof.
  unfold temp_name, _prepare_code_execution.
  destruct (language request); intros [= <-]; cbn; try reflexivity.
  eexists. unfold csharp_command. reflexivity.
Qed.




(** ** Image construction *)

(** C4.  The build description [create_image] hands to the engine: the
    project's Dockerfile whenever it is there, whatever the request
    carries; without it, the request's [custom_dockerfile] when one is
    supplied (a non-empty string); and only without both, the Dockerfile
    generated from the request. *)
Theorem create_image_precedence env request s :
  let calls := new_calls s (fst (create_image env request s)) in
  (forall project,
      project_dockerfile env = Some (Ok project) ->
      exists tag, calls = [images_build_call project tag true])
  /\ (forall custom,
      project_dockerfile env = None ->
      custom_dockerfile request = Some custom -> custom <> "" ->
      exists tag, calls = [images_build_call custom tag true])
  /\ (project_dockerfile env = None ->
      truthy (custom_dockerfile request) = false ->
      exists tag s1 generated,
        _generate_dockerfile env request s = (s1, Ok generated)
        /\ calls = [images_build_call generated tag true]).
Proof.
  intros calls. subst calls.
  assert (Hbuild : forall content s0,
    engine_log s0 = engine_log s ->
    select_dockerfile env request s = (s0, Ok content) ->
    exists tag, new_calls s (fst (create_image env request s))
                = [images_build_call content tag true]).
  { intros content s0 Hlog Hsel. unfold create_image.
    cbv [try_except bind]. rewrite Hsel.
    destruct (truthy (image_name request)).
    - cbv [ret engine_call].
      destruct (images_build _ _ _ _ _) as [built|e]; cbn [fst];
        eexists; apply new_calls_app; cbn [engine_log with_engine_log];
        by rewrite Hlog.
    - cbv [ret engine_call int_time time_time bind].
      destruct (images_build _ _ _ _ _) as [built|e]; cbn [fst];
        eexists; apply new_calls_app;
        cbn [engine_log with_engine_log with_clock_reads];
        by rewrite Hlog. }
  split; [|split].
  - intros project Hp. apply (Hbuild project s); [done|].
    unfold select_dockerfile. by rewrite Hp.
  - intros custom Hp Hc Hne. apply (Hbuild custom s); [done|].
    unfold select_dockerfile. rewrite Hp, Hc. cbn.
    destruct (String.eqb_spec custom ""); done.
  - intros Hp Hc.
    assert (Hgen : exists s1 generated,
      _generate_dockerfile env request s = (s1, Ok generated)
      /\ engine_log s1 = engine_log s).
    { unfold _generate_dockerfile. cbv [bind int_time time_time ret].
      eexists _, _. split; reflexivity. }
    destruct Hgen as (s1 & generated & Hgen & Hlog).
    destruct (Hbuild generated s1 Hlog) as [tag Htag].
    { unfold select_dockerfile. by rewrite Hp, Hc. }
    eauto.
Qed.

(** ** The execution tracker *)

(** [execute_code] returns, and leaves the tracker as it found it. *)
Lemma execute_code_returns env request s :
  exists s' r,
    execute_code env request s = (s', Ok r)
    /\ streaming_executions s' = streaming_executions s
    /\ objects s' = objects s
    /\ pending_tasks s' = pending_tasks s
    /\ next_task s' = next_task s.
Proof.
  unfold execute_code, try_except.
  run_execute_code env request s out.
  all: eexists _, _; split; [reflexivity|]; done.
Qed.

(** The monitor task on a tracked record: the response of [execute_code]
    on the record's request, the status made of it and the time of the
    end are written to the dict the id refers to, and to no other. *)
Lemma monitor_runs env id s ref r :
  streaming_executions s !! id = Some ref ->
  objects s !! ref = Some r ->
  exists s1 response s',
    execute_code env (as_execute_request (sr_request r)) s = (s1, Ok response)
    /\ _monitor_streaming_execution env id s = (s', Ok tt)
    /\ streaming_executions s' = streaming_executions s
    /\ pending_tasks s' = pending_tasks s
    /\ next_task s' = next_task s
    /\ objects s'
       = <[ref := set_end_time (clock env (clock_reads s1))
                    (set_response response
                       (set_status (if bool_decide (status response = COMPLETED)
                                    then "completed" else "failed") r))]> (objects s).
Proof.
  intros Hid Href.
  destruct (execute_code_returns env (as_execute_request (sr_request r)) s)
    as (s1 & response & Hexec & Hse & Hobj & Hpend & Hnext).
  exists s1, response. eexists. split; [exact Hexec|].
  unfold _monitor_streaming_execution.
  cbv [try_except bind get]. rewrite Hid, Href, Hexec.
  cbv [update_object modify time_time].
  split; [reflexivity|]. simpl_state_goal.
  split; [done|]. split; [done|]. split; [done|].
  rewrite Hobj. apply list_eq. intros j.
  destruct (decide (j = ref)) as [->|Hne].
  - rewrite !list_lookup_alter_eq, Href. cbn.
    by rewrite list_lookup_insert_eq by (by eapply lookup_lt_Some).
  - by rewrite !list_lookup_alter_ne, list_lookup_insert_ne by done.
Qed.

(** Starting a streaming execution: a new dict is allocated and tracked
    under the id; with the task created it is running and its monitor is
    queued, and with [create_task] raising it is marked failed at once. *)
Lemma start_runs env id request s :
  let r0 := {| sr_request := request; sr_status := "running";
               sr_start_time := clock env (clock_reads s); sr_logs := [];
               sr_task := None; sr_response := None;
               sr_end_time := None; sr_error := None |} in
  exists s',
    start_streaming_execution env id request s = (s', Ok tt)
    /\ streaming_executions s' = <[id := length (objects s)]> (streaming_executions s)
    /\ match asyncio_create_task env (next_task s) with
       | Ok _ =>
           objects s' = (objects s ++ [set_task (next_task s) r0])%list
           /\ pending_tasks s' = (pending_tasks s ++ [(next_task s, id)])%list
       | Raise e =>
           objects s' = (objects s ++ [set_error (exc_str e) (set_status "failed" r0)])%list
           /\ pending_tasks s' = pending_tasks s
       end.
Proof.
  intros r0. unfold start_streaming_execution, create_task, mark_failed, update_tracked.
  cbv [try_except bind get time_time alloc modify lift ret]. simpl_state_goal.
  destruct (asyncio_create_task env (next_task s)) as [[]|e].
  - simpl_state_goal. rewrite lookup_insert_eq.
    cbv [update_object modify]. eexists. split; [reflexivity|].
    simpl_state_goal. split; [done|]. split; [|done].
    rewrite <- (Nat.add_0_r (length (objects s))).
    by rewrite alter_app_r.
  - simpl_state_goal. rewrite lookup_insert_eq.
    rewrite bool_decide_eq_true_2 by eauto.
    cbv [bind get]. simpl_state_goal. rewrite lookup_insert_eq.
    cbv [update_object modify]. simpl_state_goal. rewrite lookup_insert_eq.
    eexists. split; [reflexivity|].
    simpl_state_goal. split; [done|]. split; [|done].
    rewrite <- (Nat.add_0_r (length (objects s))).
    by rewrite !alter_app_r.
Qed.














(** * Further properties of the manager *)

(** ** One execution, seen from the engine *)

(** X1.  The environment of the container: a variable the request sets
    has the request's value, also when it is one of the two baseline
    variables; a baseline variable the request does not set keeps its
    baseline value; nothing else is in the environment. *)
Theorem execute_code_environment env request s args :
  containers_create_call args ∈ new_calls s (fst (execute_code env request s)) ->
  (forall k v, environment_variables request !! k = Some v ->
               ca_environment args !! k = Some v)
  /\ (environment_variables request !! "PYTHONUNBUFFERED" = None ->
      ca_environment args !! "PYTHONUNBUFFERED" = Some "1")
  /\ (environment_variables request !! "NODE_ENV" = None ->
      ca_environment args !! "NODE_ENV" = Some "development")
  /\ (forall k, k <> "PYTHONUNBUFFERED" -> k <> "NODE_ENV" ->
                ca_environment args !! k = environment_variables request !! k).
Proof.
  intros Hin.
  assert (Hargs : exists q, args = create_args request q).
  { revert Hin. unfold execute_code, try_except.
    run_execute_code env request s out.
    all: simpl_state_goal; intros Hin; new_calls_in Hin; in_literal Hin; eauto. }
  destruct Hargs as [q ->]. cbn [create_args ca_environment].
  unfold baseline_environment.
  split; [|split; [|split]].
  - intros k v Hk. by apply lookup_union_Some_l.
  - intros Hk. rewrite lookup_union_r by done. by rewrite lookup_insert_eq.
  - intros Hk. rewrite lookup_union_r by done.
    by rewrite lookup_insert_ne, lookup_insert_eq.
  - intros k H1 H2.
    destruct (environment_variables request !! k) as [v|] eqn:Hk.
    + by apply lookup_union_Some_l.
    + rewrite lookup_union_r by done.
      by rewrite !lookup_insert_ne, lookup_empty by done.
Qed.

Lemma execute_code_environment_witness :
  ca_environment (create_args Scenarios.env_request 100000) !! "PYTHONUNBUFFERED"
  = Some "0"
  /\ ca_environment (create_args Scenarios.env_request 100000) !! "NODE_ENV"
     = Some "development"
  /\ ca_environment (create_args Scenarios.env_request 100000) !! "FOO" = Some "bar".
Proof.
  assert (Hin : containers_create_call (create_args Scenarios.env_request 100000)
                ∈ new_calls initial_state
                    (fst (execute_code Samples.healthy_env Scenarios.env_request
                            initial_state))).
  { vm_compute. constructor. }
  destruct (execute_code_environment Samples.healthy_env Scenarios.env_request
              initial_state _ Hin) as (Hreq & _ & Hnode & _).
  split; [|split].
  - apply Hreq. reflexivity.
  - apply Hnode. reflexivity.
  - apply Hreq. reflexivity.
Defined.

(** X2.  The engine calls of one [execute_code] are an initial part of
    create, start, exec_run, stop, remove: at most one container is
    created, every later call is on that container, the command goes
    through [bash -c] as root, and no image is built, looked up or
    listed. *)
Theorem execute_code_call_order env request s :
  exists args k command,
    new_calls s (fst (execute_code env request s))
    `prefix_of` [containers_create_call args;
                 container_start_call k;
                 container_exec_run_call k ["bash"; "-c"; command] (Some "root");
                 container_stop_call k;
                 container_remove_call k].
Proof.
  unfold execute_code, try_except.
  run_execute_code env request s out.
  all: simpl_state_goal.
  all: first [ exists (create_args request quota), k, command
             | exists (create_args request quota), {| container_id := None |}, ""
             | exists (create_args request 0), {| container_id := None |}, "" ].
  all: first [ rewrite new_calls_same by reflexivity
             | erewrite new_calls_app
                 by (simpl_state_goal; rewrite <- ?app_assoc; reflexivity) ];
    cbn [app].
  all: try apply prefix_nil.
  all: repeat apply prefix_cons; try apply prefix_nil; done.
Qed.

(** X3.  What one [execute_code] does to the registry.  When the body
    raises nothing, the registry is the one before without the key of the
    returned execution id (an older entry under that key goes too).  When
    the body raises, the registry is the one before, or the one before
    with one key set (the entry of the container that was created and
    not torn down), or, when the output could not be decoded after the
    teardown, the one before without that key. *)
Theorem execute_code_registry env request s :
  let s' := fst (execute_code env request s) in
  match execute_code_try env request s with
  | (_, Ok r) => active_containers s' = delete (execution_id r) (active_containers s)
  | (_, Raise _) =>
      active_containers s' = active_containers s
      \/ exists (t : Z) k,
           active_containers s'
           = <["exec_" ++ pretty t ++ "_" ++ short_id k := k]> (active_containers s)
           \/ active_containers s'
              = delete ("exec_" ++ pretty t ++ "_" ++ short_id k) (active_containers s)
  end.
Proof.
  cbv zeta. unfold execute_code, try_except.
  run_execute_code env request s out.
  all: simpl_state_goal.
  all: try (by left).
  all: try (right; eexists _, _; left; reflexivity).
  - cbn [execution_id]. apply delete_insert_eq.
  - right. eexists _, _. right. apply delete_insert_eq.
Qed.



(** X5.  A fault while stopping the container discards the result of the
    command: the response is failed with the fault's message and has
    neither output nor exit code, [remove] is not called, and the
    container stays in the registry. *)
Theorem execute_code_stop_failure env request s cpu_quota container run fault :
  int_of_float (cpu_cores (resource_limits request) * 100000)%float = Ok cpu_quota ->
  (forall h, containers_create (engine env) h (create_args request cpu_quota)
             = Ok container) ->
  (forall h, container_start (engine env) h container = Ok tt) ->
  (forall h cmd, container_exec_run (engine env) h container cmd (Some "root") = Ok run) ->
  (forall h, container_stop (engine env) h container = Raise fault) ->
  exists s' r (t : Z),
    execute_code env request s = (s', Ok r)
    /\ status r = FAILED
    /\ error_message r = Some (exc_str fault)
    /\ stdout r = None
    /\ exit_code r = None
    /\ active_containers s' !! ("exec_" ++ pretty t ++ "_" ++ short_id container)
       = Some container
    /\ container_remove_call container ∉ new_calls s s'.
Proof.
  intros Hquota Hcreate Hstart Hrun Hstop.
  unfold execute_code, try_except.
  run_execute_code env request s out.
  all: simplify_eq.
  all: rewrite Hcreate in Hc; simplify_eq.
  all: rewrite Hstart in Hs; simplify_eq.
  all: rewrite Hrun in Hx; simplify_eq.
  all: rewrite Hstop in Ht; simplify_eq.
  eexists _, _, _. split; [reflexivity|]. cbn [status error_message stdout exit_code].
  repeat (split; [done|]). simpl_state_goal.
  split; [apply lookup_insert_eq|].
  intros Hin. new_calls_in Hin. by in_literal Hin.
Qed.

Lemma execute_code_stop_failure_witness :
  exists s' r (t : Z),
    execute_code Scenarios.stop_fails_env Samples.python_request initial_state
    = (s', Ok r)
    /\ status r = FAILED
    /\ error_message r = Some "cannot stop container"
    /\ stdout r = None
    /\ exit_code r = None
    /\ active_containers s'
       !! ("exec_" ++ pretty t ++ "_" ++ short_id Samples.a_container)
       = Some Samples.a_container
    /\ container_remove_call Samples.a_container ∉ new_calls initial_state s'.
Proof.
  apply (execute_code_stop_failure Scenarios.stop_fails_env
           Samples.python_request initial_state 100000 Samples.a_container
           Scenarios.printed_one (Exc APIError "cannot stop container"));
    reflexivity.
Defined.

(** ** The synthesized command *)

Import Text.

Lemma b64_char_symbol n : b64_symbol (b64_char n) = true.
Proof.
  unfold b64_char.
  assert (Hlt : (N.to_nat (n mod 64) < 64)%nat).
  { pose proof (N.mod_lt n 64). lia. }
  assert (Hall : forallb (fun i => b64_symbol (default "A"%char (String.get i b64_alphabet)))
                   (seq 0 64) = true) by (vm_compute; reflexivity).
  rewrite forallb_forall in Hall. apply Hall. apply in_seq.
  split; [apply Nat.le_0_l|exact Hlt].
Qed.

Lemma b64_symbol_not_quote a : b64_symbol a = true -> not_quote a = true.
Proof.
  unfold not_quote. destruct (Ascii.eqb_spec a "'") as [->|]; [|done].
  vm_compute. discriminate.
Qed.

Lemma string_forallb_impl (p q : ascii -> bool) s :
  (forall a, p a = true -> q a = true) ->
  string_forallb p s = true -> string_forallb q s = true.
Proof.
  intros Hpq. induction s as [|a s IH]; cbn; [done|].
  rewrite !andb_true_iff. intros [? ?]. auto.
Qed.

(** Lists three elements at a time. *)
Lemma list_ind3 {A} (P : list A -> Prop) :
  P [] -> (forall a, P [a]) -> (forall a b, P [a; b]) ->
  (forall a b c l, P l -> P (a :: b :: c :: l)) ->
  forall l, P l.
Proof.
  intros H0 H1 H2 H3.
  assert (H : forall l, P l /\ (forall a, P (a :: l)) /\ (forall a b, P (a :: b :: l))).
  { induction l as [|x l (IH0 & IH1 & IH2)]; [by auto|].
    split; [exact (IH1 x)|]. split; [exact (fun a => IH2 a x)|].
    intros a b. by apply H3. }
  intros l. apply H.
Qed.

Lemma b64_groups_symbols bs : string_forallb b64_symbol (b64_groups bs) = true.
Proof.
  induction bs as [|a|a b|a b c l IH] using list_ind3.
  - reflexivity.
  - cbn [b64_groups string_forallb]. by rewrite !b64_char_symbol.
  - cbn [b64_groups string_forallb]. by rewrite !b64_char_symbol.
  - cbn [b64_groups string_forallb]. by rewrite !b64_char_symbol, IH.
Qed.

Lemma b64_groups_length bs :
  String.length (b64_groups bs) = (4 * ((length bs + 2) / 3))%nat.
Proof.
  induction bs as [|a|a b|a b c l IH] using list_ind3.
  - reflexivity.
  - reflexivity.
  - reflexivity.
  - cbn [b64_groups String.length length]. rewrite IH.
    replace (S (S (S (length l))) + 2)%nat with (1 * 3 + (length l + 2))%nat by lia.
    rewrite Nat.div_add_l by done. lia.
Qed.

Lemma str_encode_length code : length (str_encode code) = String.length code.
Proof.
  unfold str_encode, String.list_byte_of_string. rewrite List.length_map.
  induction code as [|a code IH]; cbn; [done|]. by rewrite IH.
Qed.

(** X6.  The payload that the python, node and csharp commands put
    between single quotes is made of base64 symbols only, whatever the
    code is: it contains no quote, so the code cannot end the quoted
    argument of [echo]; and it has four symbols for every three octets
    of code, rounded up. *)
Theorem encoded_code_is_quote_free (code : string) :
  let encoded := b64encode (str_encode code) in
  string_forallb b64_symbol encoded = true
  /\ string_forallb not_quote encoded = true
  /\ String.length encoded = (4 * ((String.length code + 2) / 3))%nat.
Proof.
  cbv zeta. unfold b64encode.
  split; [apply b64_groups_symbols|]. split.
  - apply (string_forallb_impl b64_symbol); [apply b64_symbol_not_quote|].
    apply b64_groups_symbols.
  - by rewrite b64_groups_length, length_fmap, str_encode_length.
Qed.

(** X7.  Bash code is not encoded: for a bash request the command run in
    the container is [bash -c] with the request's code as it is, as root,
    and the synthesizer reads no clock. *)
Theorem execute_code_bash_verbatim env request s container cmd user :
  language request = BASH ->
  container_exec_run_call container cmd user
  ∈ new_calls s (fst (execute_code env request s)) ->
  cmd = ["bash"; "-c"; code request] /\ user = Some "root"
  /\ _prepare_code_execution env request s = (s, Ok (code request, None)).
Proof.
  intros Hlang.
  assert (Hprep : _prepare_code_execution env request s = (s, Ok (code request, None))).
  { unfold _prepare_code_execution. by rewrite Hlang. }
  unfold execute_code, try_except.
  run_execute_code env request s out.
  all: rewrite Hprep in Hp; injection Hp as Hs0 <-.
  all: simpl_state_goal; intros Hin; new_calls_in Hin; by in_literal Hin.
Qed.

Lemma execute_code_bash_verbatim_witness :
  ["bash"; "-c"; "echo hi"] = ["bash"; "-c"; code Scenarios.bash_request]
  /\ Some "root" = Some "root"
  /\ _prepare_code_execution Samples.healthy_env Scenarios.bash_request initial_state
     = (initial_state, Ok (code Scenarios.bash_request, None)).
Proof.
  apply (execute_code_bash_verbatim Samples.healthy_env Scenarios.bash_request
           initial_state Samples.a_container).
  - reflexivity.
  - vm_compute. repeat constructor.
Defined.

(** X8.  The csharp command names its directory three times, from three
    readings of the clock: the directory it creates from the first, the
    one it enters from the second, the one it removes from the third.
    The three are one directory exactly when the readings fall in the
    same second. *)
Theorem csharp_command_directories env request s :
  language request = CSHARP ->
  let n := clock_reads s in
  let t1 := int_of_time (clock env n) in
  let t2 := int_of_time (clock env (S n)) in
  let t3 := int_of_time (clock env (S (S n))) in
  _prepare_code_execution env request s
  = (with_clock_reads (S (S (S n))) s,
     Ok (csharp_command (b64encode (str_encode (code request))) t1 t2 t3, None))
  /\ (csharp_dir t1 = csharp_dir t2 /\ csharp_dir t1 = csharp_dir t3
      <-> t1 = t2 /\ t1 = t3).
Proof.
  intros Hlang. cbv zeta. split.
  - unfold _prepare_code_execution. rewrite Hlang. reflexivity.
  - split.
    + intros [H2 H3]. by apply csharp_dir_inj in H2, H3.
    + intros [-> ->]. done.
Qed.

Lemma csharp_command_directories_witness :
  _prepare_code_execution Samples.ticking_env Scenarios.csharp_request initial_state
  = (with_clock_reads 3 initial_state,
     Ok (csharp_command (b64encode (str_encode (code Scenarios.csharp_request)))
           (int_of_time (clock Samples.ticking_env 0))
           (int_of_time (clock Samples.ticking_env 1))
           (int_of_time (clock Samples.ticking_env 2)), None))
  /\ (csharp_dir (int_of_time (clock Samples.ticking_env 0))
      = csharp_dir (int_of_time (clock Samples.ticking_env 1))
      /\ csharp_dir (int_of_time (clock Samples.ticking_env 0))
         = csharp_dir (int_of_time (clock Samples.ticking_env 2))
      <-> int_of_time (clock Samples.ticking_env 0)
          = int_of_time (clock Samples.ticking_env 1)
          /\ int_of_time (clock Samples.ticking_env 0)
             = int_of_time (clock Samples.ticking_env 2)).
Proof.
  exact (csharp_command_directories Samples.ticking_env Scenarios.csharp_request
           initial_state eq_refl).
Defined.

(** ** Building images *)

(** X9.  [create_image] returns a response for every behaviour of the
    engine and of the file system.  A success carries the image name and
    no error message; a failure carries an error message, no image id
    and an empty build log, also when it is the build that failed.  At
    most one engine call is made, and it is a build without cache. *)
Theorem create_image_returns env request s :
  exists s' r,
    create_image env request s = (s', Ok r)
    /\ (cir_success r = true ->
        cir_error_message r = None /\ is_Some (cir_image_name r))
    /\ (cir_success r = false ->
        is_Some (cir_error_message r) /\ cir_image_id r = None
        /\ cir_build_logs r = [])
    /\ (new_calls s s' = []
        \/ exists dockerfile tag, new_calls s s' = [images_build_call dockerfile tag true]).
Proof.
  assert (Hsel : exists s0 o, select_dockerfile env request s = (s0, o)
                              /\ engine_log s0 = engine_log s).
  { unfold select_dockerfile, _generate_dockerfile.
    destruct (project_dockerfile env) as [content|].
    - eexists _, _. split; reflexivity.
    - destruct (truthy _); eexists _, _; split; reflexivity. }
  destruct Hsel as (s0 & o & Hsel & Hlog).
  unfold create_image. cbv [try_except bind]. rewrite Hsel.
  destruct o as [content|e].
  2:{ cbv [ret]. eexists _, _. split; [reflexivity|]. cbn.
      split; [done|]. split; [intros _; split; [by eexists|done]|].
      left. by apply new_calls_same. }
  destruct (truthy (image_name request));
    cbv [ret engine_call int_time time_time bind];
    destruct (images_build _ _ _ _ _) as [built|e];
    eexists _, _; (split; [reflexivity|]); cbn [cir_success cir_error_message
      cir_image_name cir_image_id cir_build_logs];
    (split; [intros Hs; first [discriminate Hs | split; [done|by eexists]]|]);
    (split; [intros Hs; first [discriminate Hs | split; [by eexists|done]]|]);
    right; eexists _, _; apply new_calls_app;
    cbn [engine_log with_engine_log with_clock_reads]; by rewrite Hlog.
Qed.

(** X10.  A project Dockerfile that is there but cannot be read makes
    [create_image] fail with the reading error as the message and without
    any build: there is no falling back to the request's custom
    Dockerfile or to generation. *)
Theorem create_image_unreadable_project_file env request s fault :
  project_dockerfile env = Some (Raise fault) ->
  create_image env request s
  = (s, Ok {| cir_success := false; cir_image_id := None; cir_image_name := None;
              cir_build_logs := []; cir_error_message := Some (exc_str fault) |}).
Proof.
  intros Hp. unfold create_image, select_dockerfile.
  cbv [try_except bind lift ret]. by rewrite Hp.
Qed.

Lemma create_image_unreadable_project_file_witness :
  create_image Scenarios.unreadable_dockerfile_env
    (Scenarios.image_request [PYTHON] None (Some "FROM scratch")) initial_state
  = (initial_state,
     Ok {| cir_success := false; cir_image_id := None; cir_image_name := None;
           cir_build_logs := [];
           cir_error_message :=
             Some (exc_str (Exc OSError "[Errno 13] Permission denied: 'Dockerfile'")) |}).
Proof.
  exact (create_image_unreadable_project_file Scenarios.unreadable_dockerfile_env
           (Scenarios.image_request [PYTHON] None (Some "FROM scratch"))
           initial_state _ eq_refl).
Defined.

(** X11.  The tag of the build is the image name followed by ":latest".
    The name is the request's [image_name] when that is a non-empty
    string; otherwise it is "mcp-executor-" followed by the seconds of a
    clock reading, an empty [image_name] counting as none.  A successful
    response reports that same name. *)
Theorem create_image_tag env request s dockerfile tag nocache :
  images_build_call dockerfile tag nocache
  ∈ new_calls s (fst (create_image env request s)) ->
  nocache = true
  /\ exists name,
       tag = name ++ ":latest"
       /\ (forall given, image_name request = Some given -> given <> "" -> name = given)
       /\ (truthy (image_name request) = false ->
           exists t : Z, name = "mcp-executor-" ++ pretty t)
       /\ (forall r, snd (create_image env request s) = Ok r ->
                     cir_success r = true -> cir_image_name r = Some name).
Proof.
  assert (Hsel : exists s0 o, select_dockerfile env request s = (s0, o)
                              /\ engine_log s0 = engine_log s).
  { unfold select_dockerfile, _generate_dockerfile.
    destruct (project_dockerfile env) as [content|].
    - eexists _, _. split; reflexivity.
    - destruct (truthy _); eexists _, _; split; reflexivity. }
  destruct Hsel as (s0 & o & Hsel & Hlog).
  unfold create_image. cbv [try_except bind]. rewrite Hsel.
  destruct o as [content|e].
  2:{ cbv [ret]. cbn [fst]. rewrite new_calls_same by done. intros Hin.
      by apply elem_of_nil in Hin. }
  assert (Hgiven : forall given, image_name request = Some given -> given <> "" ->
            truthy (image_name request) = true
            /\ default "" (image_name request) = given).
  { intros given Hg Hne. rewrite Hg. cbn. by destruct (String.eqb_spec given ""). }
  destruct (truthy (image_name request)) eqn:Hname;
    cbv [ret engine_call int_time time_time bind];
    destruct (images_build _ _ _ _ _) as [built|e]; cbn [fst snd];
    (erewrite new_calls_app
       by (cbn [engine_log with_engine_log with_clock_reads]; by rewrite Hlog));
    intros Hin; in_literal Hin; (split; [done|]); eexists; (split; [reflexivity|]).
  all: split; [intros given Hg Hne; by destruct (Hgiven given Hg Hne)|].
  all: split; [intros Hf; first [discriminate Hf | by eexists]|].
  all: intros r [= <-]; done.
Qed.

Lemma create_image_tag_witness :
  true = true
  /\ exists name,
       "mcp-executor-1700000000:latest" = name ++ ":latest"
       /\ (forall given, image_name (Scenarios.image_request [PYTHON] (Some "") None)
                         = Some given -> given <> "" -> name = given)
       /\ (truthy (image_name (Scenarios.image_request [PYTHON] (Some "") None)) = false ->
           exists t : Z, name = "mcp-executor-" ++ pretty t)
       /\ (forall r,
             snd (create_image Samples.healthy_env
                    (Scenarios.image_request [PYTHON] (Some "") None) initial_state)
             = Ok r ->
             cir_success r = true -> cir_image_name r = Some name).
Proof.
  eapply (create_image_tag Samples.healthy_env
            (Scenarios.image_request [PYTHON] (Some "") None) initial_state).
  vm_compute. constructor.
Defined.

(** X12.  The generated Dockerfile depends on the requested languages
    only through whether node and whether csharp are among them: their
    order, repetitions, and the presence of python or bash change
    nothing. *)
Theorem generated_dockerfile_languages env request1 request2 s :
  base_os request1 = base_os request2 ->
  (NODE ∈ languages request1 <-> NODE ∈ languages request2) ->
  (CSHARP ∈ languages request1 <-> CSHARP ∈ languages request2) ->
  _generate_dockerfile env request1 s = _generate_dockerfile env request2 s.
Proof.
  intros Hos Hnode Hcsharp. unfold _generate_dockerfile.
  by rewrite Hos, (bool_decide_ext _ _ Hnode), (bool_decide_ext _ _ Hcsharp).
Qed.

Lemma generated_dockerfile_languages_witness :
  _generate_dockerfile Samples.healthy_env
    (Scenarios.image_request [PYTHON; NODE] None None) initial_state
  = _generate_dockerfile Samples.healthy_env
      (Scenarios.image_request [NODE; BASH; NODE] None None) initial_state.
Proof.
  apply (generated_dockerfile_languages Samples.healthy_env
           (Scenarios.image_request [PYTHON; NODE] None None)
           (Scenarios.image_request [NODE; BASH; NODE] None None) initial_state).
  - reflexivity.
  - split; intros _; repeat constructor.
  - split; intros H; exfalso;
      repeat (apply elem_of_cons in H as [H|H]; [discriminate H|]);
      by apply elem_of_nil in H.
Defined.

(** ** Installing packages *)

Ltac log_shape :=
  first [ apply new_calls_same; reflexivity
        | apply new_calls_app; simpl_state_goal; rewrite <- ?app_assoc; reflexivity ].

(** X13.  [install_package] returns a response for every behaviour of
    the engine, and the response is a success exactly when it carries no
    error message.  The rebuild strategy calls [images.get] and then at
    most one build (with the cache allowed); the in-place strategy calls
    [containers.list] and then at most one [exec_run], and never yields a
    new image id. *)
Theorem install_package_returns env request s :
  exists s' r,
    install_package env request s = (s', Ok r)
    /\ (ipr_success r = true <-> ipr_error_message r = None)
    /\ (build_new_image request = true ->
        new_calls s s' = [images_get_call (ipr_image_id request)]
        \/ exists dockerfile tag,
             new_calls s s' = [images_get_call (ipr_image_id request);
                               images_build_call dockerfile tag false])
    /\ (build_new_image request = false ->
        new_image_id r = None
        /\ (new_calls s s' = [containers_list_call (ipr_image_id request)]
            \/ exists k cmd user,
                 new_calls s s' = [containers_list_call (ipr_image_id request);
                                   container_exec_run_call k cmd user])).
Proof.
  unfold install_package. destruct (build_new_image request).
  - unfold _build_image_with_package.
    cbv [try_except bind engine_call ret raise int_time time_time].
    destruct (images_get _ _ _) as [image|e].
    + simpl_state_goal.
      destruct (images_build _ _ _ _ _) as [built|e];
        eexists _, _; (split; [reflexivity|]); cbn [ipr_success ipr_error_message
          install_failure]; (split; [done|]); (split; [|done]);
        intros _; right; eexists _, _; log_shape.
    + destruct (isinstance e ImageNotFound);
        eexists _, _; (split; [reflexivity|]); cbn [ipr_success ipr_error_message
          install_failure]; (split; [done|]); (split; [|done]);
        intros _; left; log_shape.
  - unfold _install_package_in_container.
    cbv [try_except bind engine_call ret raise lift].
    destruct (containers_list _ _ _) as [[|k ks]|e].
    + eexists _, _. split; [reflexivity|]. cbn. split; [done|]. split; [done|].
      intros _. split; [done|]. left. log_shape.
    + simpl_state_goal.
      destruct (container_exec_run _ _ _ _ _) as [res|e].
      * destruct (er_exit_code res =? 0)%Z;
          destruct (decode_or _ _) as [text|e];
          eexists _, _; (split; [reflexivity|]); cbn [ipr_success ipr_error_message
            new_image_id install_failure]; (split; [done|]); (split; [done|]);
          intros _; (split; [done|]); right; eexists _, _, _; log_shape.
      * eexists _, _. split; [reflexivity|]. cbn [ipr_success ipr_error_message
          new_image_id install_failure]. split; [done|]. split; [done|].
        intros _. split; [done|]. right. eexists _, _, _. log_shape.
    + eexists _, _. split; [reflexivity|]. cbn. split; [done|]. split; [done|].
      intros _. split; [done|]. left. log_shape.
Qed.

(** X14.  Under the rebuild strategy, an exception of [images.get] that
    is not an [ImageNotFound] is reported as a failed build, with
    "Build failed: " before its text, although no build was attempted. *)
Theorem install_package_lookup_fault env request s fault :
  build_new_image request = true ->
  images_get (engine env) (engine_log s) (ipr_image_id request) = Raise fault ->
  isinstance fault ImageNotFound = false ->
  exists s',
    install_package env request s
    = (s', Ok {| ipr_success := false; new_image_id := None; ipr_build_logs := [];
                 ipr_error_message := Some ("Build failed: " ++ exc_str fault) |})
    /\ new_calls s s' = [images_get_call (ipr_image_id request)].
Proof.
  intros Hnew Hget Hcls.
  unfold install_package, _build_image_with_package. rewrite Hnew.
  cbv [try_except bind engine_call ret raise]. rewrite Hget, Hcls.
  eexists. split; [reflexivity|]. log_shape.
Qed.

Lemma install_package_lookup_fault_witness :
  exists s',
    install_package Scenarios.api_error_env Samples.install_request initial_state
    = (s', Ok {| ipr_success := false; new_image_id := None; ipr_build_logs := [];
                 ipr_error_message := Some "Build failed: 500 Server Error" |})
    /\ new_calls initial_state s' = [images_get_call "ghost:latest"].
Proof.
  apply (install_package_lookup_fault Scenarios.api_error_env Samples.install_request
           initial_state (Exc APIError "500 Server Error"));
    reflexivity.
Defined.

(** *** The sanitized package name *)


















(** X16.  The in-place strategy needs a container that is already
    running: with none listed for the image it fails with "No running
    containers found for the specified image" after the one
    [containers.list] call.  Otherwise the package manager runs in the
    first container listed, with the argument vector of the request's
    language, as root for node and csharp and as the container's own user
    for python and bash. *)
Theorem install_in_place_target env request s :
  build_new_image request = false ->
  let s' := fst (install_package env request s) in
  (containers_list (engine env) (engine_log s) (ipr_image_id request) = Ok [] ->
   snd (install_package env request s)
   = Ok (install_failure "No running containers found for the specified image")
   /\ new_calls s s' = [containers_list_call (ipr_image_id request)])
  /\ (forall k cmd user,
        container_exec_run_call k cmd user ∈ new_calls s s' ->
        (exists rest,
            containers_list (engine env) (engine_log s) (ipr_image_id request)
            = Ok (k :: rest))
        /\ cmd = install_cmd (ipr_language request)
                   (package_spec (package_name request) (package_version request))
        /\ (user = Some "root"
            <-> ipr_language request = NODE \/ ipr_language request = CSHARP)
        /\ (user = None
            <-> ipr_language request = PYTHON \/ ipr_language request = BASH)).
Proof.
  intros Hnew. cbv zeta. unfold install_package. rewrite Hnew.
  unfold _install_package_in_container.
  cbv [try_except bind engine_call ret raise lift].
  split.
  - intros ->. cbn [fst snd]. split; [done|]. log_shape.
  - intros k cmd user.
    assert (Huser : forall l,
      (install_user l = Some "root" <-> l = NODE \/ l = CSHARP)
      /\ (install_user l = None <-> l = PYTHON \/ l = BASH)).
    { intros []; cbn; split; split; intros H; try done; auto;
        by destruct H. }
    destruct (containers_list _ _ _) as [[|k0 ks]|e].
    + cbn [fst]. erewrite new_calls_app by (simpl_state_goal; reflexivity).
      intros Hin. by in_literal Hin.
    + simpl_state_goal.
      destruct (container_exec_run _ _ _ _ _) as [res|e].
      * destruct (er_exit_code res =? 0)%Z; destruct (decode_or _ _) as [text|e];
          cbn [fst];
          (erewrite new_calls_app
             by (simpl_state_goal; rewrite <- ?app_assoc; reflexivity));
          intros Hin; in_literal Hin;
          (split; [by eexists|]); (split; [done|]); apply Huser.
      * cbn [fst].
        erewrite new_calls_app
          by (simpl_state_goal; rewrite <- ?app_assoc; reflexivity).
        intros Hin. in_literal Hin.
        split; [by eexists|]. split; [done|]. apply Huser.
    + cbn [fst]. erewrite new_calls_app by (simpl_state_goal; reflexivity).
      intros Hin. by in_literal Hin.
Qed.

Lemma install_in_place_target_witness :
  (exists rest,
      containers_list (engine Samples.healthy_env) (engine_log initial_state)
        (ipr_image_id (Scenarios.in_place_request NODE))
      = Ok (Samples.a_container :: rest))
  /\ ["npm"; "install"; "-g"; "lodash==4.17.21"]
     = install_cmd (ipr_language (Scenarios.in_place_request NODE))
         (package_spec (package_name (Scenarios.in_place_request NODE))
            (package_version (Scenarios.in_place_request NODE)))
  /\ (Some "root" = Some "root"
      <-> ipr_language (Scenarios.in_place_request NODE) = NODE
          \/ ipr_language (Scenarios.in_place_request NODE) = CSHARP)
  /\ (Some "root" = None
      <-> ipr_language (Scenarios.in_place_request NODE) = PYTHON
          \/ ipr_language (Scenarios.in_place_request NODE) = BASH).
Proof.
  apply (install_in_place_target Samples.healthy_env
           (Scenarios.in_place_request NODE) initial_state eq_refl).
  vm_compute. repeat constructor.
Defined.

(** ** More on the execution tracker *)

(** X17.  Starting a streaming execution under an id that is already
    tracked does not touch the dict that was tracked: a new dict is
    allocated, running and without response, and the id refers to it from
    then on, whatever status the old record had; the old dict stays as
    it was, out of reach of the progress queries. *)
Theorem start_replaces_tracked_record env id request s old :
  get_execution_progress s id = Some old ->
  asyncio_create_task env (next_task s) = Ok tt ->
  let s' := fst (start_streaming_execution env id request s) in
  exists ref r,
    streaming_executions s !! id = Some ref
    /\ objects s' !! ref = Some old
    /\ streaming_executions s' !! id = Some (length (objects s))
    /\ ref <> length (objects s)
    /\ get_execution_progress s' id = Some r
    /\ sr_status r = "running"
    /\ sr_request r = request
    /\ sr_response r = None
    /\ sr_end_time r = None.
Proof.
  intros Hold Hcreate. cbv zeta.
  destruct (start_runs env id request s) as (s' & -> & Hse & Hcase). cbn [fst].
  rewrite Hcreate in Hcase. destruct Hcase as [Hobj Hpend].
  unfold get_execution_progress in Hold |- *.
  destruct (streaming_executions s !! id) as [ref|] eqn:Hid; [|done].
  pose proof (lookup_lt_Some _ _ _ Hold) as Hlt.
  exists ref. eexists. split; [done|].
  rewrite Hse, lookup_insert_eq, Hobj.
  split; [by rewrite lookup_app_l|]. split; [done|]. split; [lia|].
  rewrite lookup_app_r, Nat.sub_diag by done. split; [reflexivity|]. done.
Qed.

Lemma start_replaces_tracked_record_witness :
  let s := apply_all Samples.healthy_env
             [op_start_streaming "stream_1" Samples.stream_request; op_run_task 0]
             initial_state in
  let s' := fst (start_streaming_execution Samples.healthy_env "stream_1"
                   Samples.stream_request s) in
  (exists old, get_execution_progress s "stream_1" = Some old
               /\ sr_status old = "completed")
  /\ exists ref r,
       streaming_executions s !! "stream_1" = Some ref
       /\ ref <> length (objects s)
       /\ get_execution_progress s' "stream_1" = Some r
       /\ sr_status r = "running".
Proof.
  cbv zeta. split.
  - eexists. split; vm_compute; reflexivity.
  - edestruct (start_replaces_tracked_record Samples.healthy_env "stream_1"
                 Samples.stream_request
                 (apply_all Samples.healthy_env
                    [op_start_streaming "stream_1" Samples.stream_request;
                     op_run_task 0] initial_state))
      as (ref & r & H1 & _ & _ & H4 & H5 & H6 & _).
    + vm_compute. reflexivity.
    + reflexivity.
    + exists ref, r. auto.
Defined.

(** The dicts after one operation: the ones before, with at most one of
    them updated by the setters, or with one more whose log is empty. *)
Lemma objects_logs_step env op s :
  Forall (fun r => sr_logs r = []) (objects s) ->
  Forall (fun r => sr_logs r = []) (objects (apply env op s)).
Proof.
  intros Hall. destruct op as [request|id request|task]; cbn [apply].
  - destruct (execute_code_returns env request s) as (s' & r & -> & _ & Hobj & _).
    cbn [fst]. by rewrite Hobj.
  - destruct (start_runs env id request s) as (s' & -> & _ & Hcase). cbn [fst].
    destruct (asyncio_create_task env (next_task s)) as [[]|e];
      destruct Hcase as [Hobj _]; rewrite Hobj; apply Forall_app;
      (split; [done|]); by apply Forall_singleton.
  - unfold run_task. cbv [bind get].
    destruct (List.find _ _) as [[t id]|]; [|done].
    cbv [modify]. set (s0 := with_pending_tasks _ s).
    assert (Hall0 : Forall (fun r => sr_logs r = []) (objects s0)) by done.
    clearbody s0.
    destruct (streaming_executions s0 !! id) as [ref|] eqn:Hid.
    2:{ unfold _monitor_streaming_execution. cbv [try_except bind get].
        by rewrite Hid. }
    destruct (objects s0 !! ref) as [r|] eqn:Href.
    2:{ unfold _monitor_streaming_execution. cbv [try_except bind get].
        by rewrite Hid, Href. }
    destruct (monitor_runs env id s0 ref r Hid Href)
      as (s1 & response & s' & _ & -> & _ & _ & _ & Hobj). cbn [fst].
    rewrite Hobj. apply Forall_insert; [done|]. cbn.
    by apply (Forall_lookup_1 _ _ _ _ Hall0 Href).
Qed.

(** X18.  Nothing ever writes a log line: in every state the manager
    reaches, by any sequence of executions, starts and monitor runs, the
    record a progress query returns has an empty list of logs. *)
Theorem tracked_logs_stay_empty env ops id r :
  get_execution_progress (apply_all env ops initial_state) id = Some r ->
  sr_logs r = [].
Proof.
  assert (Hall : forall s, Forall (fun r => sr_logs r = []) (objects s) ->
            Forall (fun r => sr_logs r = []) (objects (apply_all env ops s))).
  { induction ops as [|op ops IH]; intros s Hs; cbn; [done|].
    apply IH. by apply objects_logs_step. }
  specialize (Hall initial_state (Forall_nil_2 _)).
  unfold get_execution_progress.
  destruct (streaming_executions _ !! id) as [ref|]; [|done].
  intros Href. by apply (Forall_lookup_1 _ _ _ _ Hall Href).
Qed.

Lemma tracked_logs_stay_empty_witness :
  exists r,
    get_execution_progress
      (apply_all Samples.healthy_env
         [op_start_streaming "stream_1" Samples.stream_request; op_run_task 0]
         initial_state) "stream_1" = Some r
    /\ sr_logs r = [].
Proof.
  eexists. split; [vm_compute; reflexivity|].
  eapply (tracked_logs_stay_empty Samples.healthy_env
            [op_start_streaming "stream_1" Samples.stream_request; op_run_task 0]
            "stream_1").
  vm_compute. reflexivity.
Defined.

(** ** The file store *)



Example get_file_shadowed :
  FileManager.get_file Scenarios.shadowed_upload "f1" = None.
Proof. vm_compute. reflexivity. Qed.

(** X20.  The value of a language and the language of a value: reading
    back the string stored for a language gives that language, and only
    the four stored strings are read as a language. *)
Theorem Language_value_round_trip :
  (forall l, Language_of_value (Language_value l) = Some l)
  /\ (forall v l, Language_of_value v = Some l -> v = Language_value l)
  /\ (forall v, Language_of_value v = None
                <-> v <> "python" /\ v <> "node" /\ v <> "csharp" /\ v <> "bash").
Proof.
  assert (Hsome : forall v l, Language_of_value v = Some l -> v = Language_value l).
  { intros v l H. apply List.find_some in H as [_ Heq].
    apply String.eqb_eq in Heq. done. }
  split; [by intros []|]. split; [exact Hsome|].
  intros v. split.
  - intros Hnone.
    assert (Hne : forall l, Language_value l <> v).
    { intros l Heq.
      assert (Hf : String.eqb (Language_value l) v = false).
      { apply (List.find_none _ _ Hnone l). destruct l; cbn; auto. }
      apply String.eqb_neq in Hf. done. }
    repeat split; intros ->.
    + by apply (Hne PYTHON).
    + by apply (Hne NODE).
    + by apply (Hne CSHARP).
    + by apply (Hne BASH).
  - intros (H1 & H2 & H3 & H4).
    destruct (Language_of_value v) as [l|] eqn:Hl; [|done].
    apply Hsome in Hl. by destruct l.
Qed.

(** X21.  A stored language string that is not one of the four values
    makes [execute_uploaded_file] raise the validation error of the
    request it builds: the exception leaves the method, no response is
    returned, and nothing was done, not even a reading of the clock. *)
Theorem execute_uploaded_file_raises env request s file_info :
  FileManager.get_file (uploads env) (file_id request) = Some file_info ->
  Language_of_value (FileManager.md_language (FileManager.fi_metadata file_info)) = None ->
  exists e,
    execute_uploaded_file env request s = (s, Raise e)
    /\ exc_class e = ValidationError.
Proof.
  intros Hfile Hlang. unfold execute_uploaded_file, ExecuteCodeRequest_init.
  rewrite Hfile, Hlang. cbv [bind lift]. eexists. split; reflexivity.
Qed.

Lemma execute_uploaded_file_raises_witness :
  exists e,
    execute_uploaded_file Scenarios.tampered_env (Samples.file_request "f1")
      initial_state
    = (initial_state, Raise e)
    /\ exc_class e = ValidationError.
Proof.
  apply (execute_uploaded_file_raises Scenarios.tampered_env
           (Samples.file_request "f1") initial_state
           {| FileManager.fi_metadata := Scenarios.tampered_metadata;
              FileManager.fi_content := "print(1)" |});
    vm_compute; reflexivity.
Defined.

(** ** The MCP tools *)

Lemma prefix_app (p x : string) : starts_with p (p ++ x) = true.
Proof.
  induction p as [|a p IH]; [reflexivity|].
  rewrite string_app_cons. cbn [starts_with].
  by rewrite Ascii.eqb_refl, IH.
Qed.

(** X22.  What the [execute_code] tool answers.  A language string that
    is not one of the four values is refused before anything is done,
    with the text of the enumeration's error.
    When the manager's execution runs to its end, the answer is the text
    of the result.  When the manager's execution fails with an
    exception, the answer is not the manager's error message: the failed
    response has no execution time, formatting it raises, and the tool
    answers with that formatting error. *)
Theorem mcp_execute_code_answer format_2f env language code image_id
    working_directory timeout_seconds s :
  let answer := McpServer.execute_code format_2f env language code image_id
                  working_directory timeout_seconds s in
  match Language_of_value language with
  | None =>
      fst answer = s
      /\ starts_with "Error executing code: " (snd answer) = true
      /\ (string_forallb shown_as_is language = true ->
          snd answer
          = "Error executing code: '" ++ language ++ "' is not a valid Language")
  | Some l =>
      let request :=
        {| Models.language := l; Models.code := code;
           Models.image_id := Some image_id;
           Models.working_directory := working_directory;
           environment_variables := ∅;
           resource_limits := ResourceLimits_default;
           input_data := None |} in
      fst answer = fst (execute_code env request s)
      /\ match execute_code_try env request s with
         | (_, Raise _) =>
             snd answer
             = "Error executing code: "
               ++ "unsupported format string passed to NoneType.__format__"
         | (_, Ok r) =>
             snd answer
             = "Execution Result:" ++ nl
               ++ "- Execution ID: " ++ execution_id r ++ nl
               ++ "- Status: " ++ McpServer.ExecutionStatus_value (status r) ++ nl
               ++ "- Exit Code: " ++ McpServer.str_of_option_int (exit_code r) ++ nl
               ++ "- Execution Time: " ++ format_2f 0.0%float ++ "s" ++ nl
               ++ nl
               ++ "STDOUT:" ++ nl
               ++ McpServer.str_of_option (stdout r) ++ nl
               ++ nl
               ++ "STDERR:" ++ nl
         end
  end.
Proof.
  cbv zeta. unfold McpServer.execute_code, McpServer.tool, McpServer.tool_bind,
    McpServer.Language_call.
  destruct (Language_of_value language) as [l|];
    [|split; [reflexivity|split; [cbn [snd]; apply prefix_app|reflexivity]]].
  unfold McpServer.tool_ret. cbv beta iota. unfold McpServer.call.
  unfold execute_code, try_except.
  run_execute_code env
    {| Models.language := l; Models.code := code; Models.image_id := Some image_id;
       Models.working_directory := working_directory; environment_variables := ∅;
       resource_limits := ResourceLimits_default; input_data := None |} s out.
  all: split; reflexivity.
Qed.

(** X23.  The [create_image] tool never reports a success: its answer
    begins with "Failed to create image: " or with "Error creating
    image: ".  When the manager did build the image, the answer is the
    error of reading an attribute the response does not have. *)
Theorem mcp_create_image_never_reports_success env languages image_name s :
  let answer := McpServer.create_image env languages image_name s in
  (starts_with "Failed to create image: " (snd answer) = true
   \/ starts_with "Error creating image: " (snd answer) = true)
  /\ forall s0 langs s1 r,
       McpServer.Language_calls languages s = (s0, inr langs) ->
       langs <> [] ->
       create_image env
         {| Models.languages := langs; requirements := ∅;
            Models.image_name := Some image_name;
            custom_dockerfile := None; base_os := "ubuntu:22.04" |} s0
       = (s1, Ok r) ->
       cir_success r = true ->
       answer = (s1, "Error creating image: "
                     ++ "'CreateImageResponse' object has no attribute "
                     ++ "'build_time_seconds'").
Proof.
  cbv zeta. unfold McpServer.create_image, McpServer.tool.
  cbv [McpServer.tool_bind McpServer.tool_ret McpServer.tool_fail McpServer.call].
  split.
  - destruct (McpServer.Language_calls languages s) as [s0 [f|langs]];
      [right; cbn [snd]; apply prefix_app|].
    destruct langs as [|l langs]; [right; cbn [snd]; apply prefix_app|].
    cbv [McpServer.CreateImageRequest_call McpServer.tool_ret].
    destruct (create_image _ _ _) as [s1 [r|e]]; [|right; cbn [snd]; apply prefix_app].
    destruct (cir_success r); [right|left]; cbn [snd]; apply prefix_app.
  - intros s0 langs s1 r Hlangs Hne Hcreate Hsuccess. rewrite Hlangs.
    destruct langs as [|l langs]; [done|].
    cbv [McpServer.CreateImageRequest_call McpServer.tool_ret].
    rewrite Hcreate, Hsuccess. reflexivity.
Qed.

Example mcp_create_image_after_a_build :
  exists s',
    McpServer.create_image Samples.healthy_env ["python"; "node"] "demo" initial_state
    = (s', "Error creating image: 'CreateImageResponse' object has no attribute "
           ++ "'build_time_seconds'")
    /\ exists dockerfile,
         new_calls initial_state s' = [images_build_call dockerfile "demo:latest" true].
Proof.
  eexists. split; [vm_compute; reflexivity|].
  eexists. vm_compute. reflexivity.
Qed.

(** X24.  The [install_package] tool never reports a success either: its
    answer begins with "Failed to install package: " or with "Error
    installing package: ".  Without an image id nothing is asked of the
    engine; when the manager did install the package, the answer is the
    error of reading an attribute the response does not have. *)
Theorem mcp_install_package_never_reports_success env package_name language
    image_id build_new s :
  let answer := McpServer.install_package env package_name language image_id
                  build_new s in
  (starts_with "Failed to install package: " (snd answer) = true
   \/ starts_with "Error installing package: " (snd answer) = true)
  /\ (image_id = None -> fst answer = s)
  /\ forall l image s1 r,
       Language_of_value language = Some l ->
       image_id = Some image ->
       install_package env
         {| ipr_image_id := image; ipr_language := l;
            Models.package_name := package_name;
            Models.build_new_image := build_new; package_version := None |} s
       = (s1, Ok r) ->
       ipr_success r = true ->
       answer = (s1, "Error installing package: "
                     ++ "'InstallPackageResponse' object has no attribute "
                     ++ "'installation_time_seconds'").
Proof.
  cbv zeta. unfold McpServer.install_package, McpServer.tool.
  cbv [McpServer.tool_bind McpServer.tool_ret McpServer.tool_fail McpServer.call
       McpServer.Language_call McpServer.InstallPackageRequest_call].
  split; [|split].
  - destruct (Language_of_value language) as [l|];
      [|right; cbn [snd]; apply prefix_app].
    destruct image_id as [image|]; [|right; cbn [snd]; apply prefix_app].
    destruct (install_package _ _ _) as [s1 [r|e]];
      [|right; cbn [snd]; apply prefix_app].
    destruct (ipr_success r); [right|left]; cbn [snd]; apply prefix_app.
  - intros ->. destruct (Language_of_value language); reflexivity.
  - intros l image s1 r Hl -> Hinstall Hsuccess. rewrite Hl.
    rewrite Hinstall, Hsuccess. reflexivity.
Qed.
